(** * Risk engine of calculadora-cardiorrenal

    Shallow embedding of the risk-computation core
    (calculateCVRisk, calculateRenalRisk, getCombinedResults,
    calculateOptimalRisk), of the [MedicalData] record of types.ts, and
    of the computations of App.tsx around it: the form updates, the
    derived values shown in the report and the charts, the navigation
    between the views and the AI provider settings kept in localStorage.

    JavaScript numbers are modelled as real numbers: [Math.log] is [ln],
    [Math.exp] is [exp], [Math.pow] on a positive base is [Rpower],
    [Math.min] / [Math.max] are [Rmin] / [Rmax]. *)

From Stdlib Require Import Reals Lra Lia List String.
Import ListNotations.
Open Scope R_scope.

(** ** Data model (src/types.ts) *)

Inductive Gender := MALE | FEMALE.

Record MedicalData := mkMedicalData {
  age : R;
  gender : Gender;
  height : R;
  weight : R;
  bmi : R;
  systolicBP : R;
  diastolicBP : R;
  totalCholesterol : R;
  hdlCholesterol : R;
  hasDiabetes : bool;
  isSmoker : bool;
  onHypertensionMeds : bool;
  onStatins : bool;
  eGFR : R;
  acr : R;
  useFullKfre : bool;
  phosphate : option R;
  bicarbonate : option R;
  calcium : option R;
  albumin : option R
}.

Inductive CombinedLevel := low | moderate | high | very_high.

Module CvTimeline.
Record t := mk { fiveYear : R; tenYear : R; fifteenYear : R }.
End CvTimeline.

Module Cv30y.
Record t := mk { total : R }.
End Cv30y.

Module RenalTimeline.
Record t := mk { twoYear : R; fiveYear : R; tenYear : R }.
End RenalTimeline.

Record RiskResults := mkRiskResults {
  cvTimeline : CvTimeline.t;
  cv30y : Cv30y.t;
  renalTimeline : RenalTimeline.t;
  combinedLevel : CombinedLevel
}.

(** Return value of [calculateCVRisk] (an object literal in the source). *)
Module CVRisk.
Record t := mk { fiveYear : R; tenYear : R; fifteenYear : R; total : R }.
End CVRisk.

(** Return value of [calculateRenalRisk]. *)
Module RenalRisk.
Record t := mk { twoYear : R; fiveYear : R; tenYear : R }.
End RenalRisk.

(** ** JavaScript primitives *)

(** [Math.log] agrees with [ln] on positive arguments only: JavaScript
    returns -Infinity at 0 and NaN below, where [ln] returns 0. Statements
    that evaluate a logarithm of a form field therefore assume the field
    positive. *)
Definition Math_log (x : R) : R := ln x.
Definition Math_exp (x : R) : R := exp x.
Definition Math_pow (x y : R) : R := Rpower x y.
Definition Math_min (x y : R) : R := Rmin x y.
Definition Math_max (x y : R) : R := Rmax x y.

(** [x > y] as a JavaScript boolean. *)
Definition gtb (x y : R) : bool := if Rlt_dec y x then true else false.

(** [b ? 1 : 0] *)
Definition b2r (b : bool) : R := if b then 1 else 0.

(** ** calculateCVRisk (Pooled Cohort Equations) *)

(** The three values the [if (gender === Gender.MALE)] block assigns:
    [indivSum], [meanSum] and [s10]. *)
Definition cvCoefficients (data : MedicalData) : R * R * R :=
  let evalAge := Math_min (Math_max (age data) 30) 79 in
  let lnAge := Math_log evalAge in
  let lnTotalChol := Math_log (totalCholesterol data) in
  let lnHDL := Math_log (hdlCholesterol data) in
  let lnSBP := Math_log (systolicBP data) in
  let smoker := b2r (isSmoker data) in
  let diabetes := b2r (hasDiabetes data) in
  match gender data with
  | MALE =>
      let indivSum :=
        12.344 * lnAge +
        11.853 * lnTotalChol +
        -2.664 * lnAge * lnTotalChol +
        -7.990 * lnHDL +
        1.769 * lnAge * lnHDL +
        (if onHypertensionMeds data then 1.797 * lnSBP else 1.764 * lnSBP) +
        7.837 * smoker +
        -1.795 * lnAge * smoker +
        0.658 * diabetes in
      (indivSum, 61.1816, 0.9144)
  | FEMALE =>
      let indivSum :=
        -29.799 * lnAge +
        4.884 * lnAge * lnAge +
        13.540 * lnTotalChol +
        -3.114 * lnAge * lnTotalChol +
        -13.578 * lnHDL +
        3.149 * lnAge * lnHDL +
        (if onHypertensionMeds data then 2.019 * lnSBP else 1.957 * lnSBP) +
        7.574 * smoker +
        -1.665 * lnAge * smoker +
        0.661 * diabetes in
      (indivSum, -29.182, 0.9665)
  end.

(** The inner closure [calculateRiskAtTime], with the variables it
    captures ([s10], [riskFactor], [onStatins]) made explicit. *)
Definition calculateRiskAtTime (s10 riskFactor : R) (onStatins : bool) (t : R) : R :=
  let st := Math_pow s10 (t / 10) in
  let risk := 1 - Math_pow st riskFactor in
  let risk := if onStatins then risk * 0.75 else risk in
  Math_min (Math_max (risk * 100) 0.1) 100.

Definition calculateCVRisk (data : MedicalData) : CVRisk.t :=
  let '(indivSum, meanSum, s10) := cvCoefficients data in
  let riskFactor := Math_exp (indivSum - meanSum) in
  let at_ := calculateRiskAtTime s10 riskFactor (onStatins data) in
  CVRisk.mk (at_ 5) (at_ 10) (at_ 15) (at_ 10).

(** ** calculateRenalRisk (KFRE, 4 variables) *)

Definition calculateRenalRisk (data : MedicalData) : RenalRisk.t :=
  let isMale := match gender data with MALE => 1 | FEMALE => 0 end in
  let lnACR := Math_log (acr data) in
  let lp :=
    -0.2201 * (age data / 10 - 7.036) +
    0.2467 * (isMale - 0.5642) -
    0.5567 * (eGFR data / 5 - 7.222) +
    0.4510 * (lnACR - 5.137) in
  let s2 := 0.9832 in
  let s5 := 0.9365 in
  let s10 := 0.8200 in
  RenalRisk.mk
    ((1 - Math_pow s2 (Math_exp lp)) * 100)
    ((1 - Math_pow s5 (Math_exp lp)) * 100)
    ((1 - Math_pow s10 (Math_exp lp)) * 100).

(** ** getCombinedResults *)

(** The [let level = 'low'; if ... else if ...] chain, as a function of
    [cvRes.tenYear] and [renalRes.fiveYear]. *)
Definition stratify (cvTen renalFive : R) : CombinedLevel :=
  if (gtb cvTen 20 || gtb renalFive 15)%bool then very_high
  else if (gtb cvTen 10 || gtb renalFive 10)%bool then high
  else if (gtb cvTen 5 || gtb renalFive 5)%bool then moderate
  else low.

Definition getCombinedResults (data : MedicalData) : RiskResults :=
  let cvRes := calculateCVRisk data in
  let renalRes := calculateRenalRisk data in
  let level := stratify (CVRisk.tenYear cvRes) (RenalRisk.fiveYear renalRes) in
  {| cvTimeline := CvTimeline.mk (CVRisk.fiveYear cvRes) (CVRisk.tenYear cvRes)
                                 (CVRisk.fifteenYear cvRes);
     cv30y := Cv30y.mk (Math_min (CVRisk.tenYear cvRes * 2.5) 100);
     renalTimeline := RenalTimeline.mk (RenalRisk.twoYear renalRes)
                        (RenalRisk.fiveYear renalRes) (RenalRisk.tenYear renalRes);
     combinedLevel := level |}.

(** ** calculateOptimalRisk *)

Definition optimalData (data : MedicalData) : MedicalData :=
  {| age := age data; gender := gender data; height := height data;
     weight := weight data; bmi := bmi data;
     systolicBP := 115; diastolicBP := 75;
     totalCholesterol := 160; hdlCholesterol := 55;
     hasDiabetes := hasDiabetes data;
     isSmoker := false; onHypertensionMeds := false; onStatins := false;
     eGFR := eGFR data; acr := acr data; useFullKfre := useFullKfre data;
     phosphate := phosphate data; bicarbonate := bicarbonate data;
     calcium := calcium data; albumin := albumin data |}.

Definition calculateOptimalRisk (data : MedicalData) : CVRisk.t :=
  calculateCVRisk (optimalData data).

(** ** Derived quantities used in the statements *)

(** The linear predictor [indivSum - meanSum] of [calculateCVRisk]. *)
Definition linearPredictor (data : MedicalData) : R :=
  let '(indivSum, meanSum, _) := cvCoefficients data in indivSum - meanSum.

(** The sex-specific baseline survival [s10] of [calculateCVRisk]. *)
Definition baselineS10 (data : MedicalData) : R :=
  let '(_, _, s10) := cvCoefficients data in s10.

(** [risk * 100] in [calculateRiskAtTime], just before the final clamp. *)
Definition riskBeforeClamp (s10 riskFactor : R) (onStatins : bool) (t : R) : R :=
  let st := Math_pow s10 (t / 10) in
  let risk := 1 - Math_pow st riskFactor in
  let risk := if onStatins then risk * 0.75 else risk in
  risk * 100.

(** The unclamped cardiovascular risk of a record at horizon [t]. *)
Definition cvUnclamped (data : MedicalData) (t : R) : R :=
  riskBeforeClamp (baselineS10 data) (Math_exp (linearPredictor data))
    (onStatins data) t.

(** [calculateRiskAtTime t] as [calculateCVRisk] instantiates it. *)
Definition cvRiskAtTime (data : MedicalData) (t : R) : R :=
  calculateRiskAtTime (baselineS10 data) (Math_exp (linearPredictor data))
    (onStatins data) t.

(** The same record with [onStatins] set. *)
Definition withStatins (data : MedicalData) (b : bool) : MedicalData :=
  {| age := age data; gender := gender data; height := height data;
     weight := weight data; bmi := bmi data;
     systolicBP := systolicBP data; diastolicBP := diastolicBP data;
     totalCholesterol := totalCholesterol data;
     hdlCholesterol := hdlCholesterol data;
     hasDiabetes := hasDiabetes data; isSmoker := isSmoker data;
     onHypertensionMeds := onHypertensionMeds data; onStatins := b;
     eGFR := eGFR data; acr := acr data; useFullKfre := useFullKfre data;
     phosphate := phosphate data; bicarbonate := bicarbonate data;
     calcium := calcium data; albumin := albumin data |}.

(** ** The term structure the spec describes for the PCE predictor *)

(** One coefficient per term of the spec's list, the ln(SBP) term having
    two coefficients selected by [onHypertensionMeds]. *)
Record PCECoeffs := mkPCECoeffs {
  k_lnAge : R;
  k_lnTotalChol : R;
  k_lnHDL : R;
  k_lnSBPTreated : R;
  k_lnSBPUntreated : R;
  k_lnAgeTotalChol : R;
  k_lnAgeHDL : R;
  k_smoker : R;
  k_lnAgeSmoker : R;
  k_diabetes : R
}.

(** The age the model evaluates: clamped to [30, 79]. *)
Definition modelAge (data : MedicalData) : R := Rmin (Rmax (age data) 30) 79.

(** The linear combination of the spec's terms with coefficients [k]. *)
Definition pceCombination (k : PCECoeffs) (data : MedicalData) : R :=
  let lnAge := ln (modelAge data) in
  let lnTC := ln (totalCholesterol data) in
  let lnHDL := ln (hdlCholesterol data) in
  let lnSBP := ln (systolicBP data) in
  let smoker := b2r (isSmoker data) in
  let diabetes := b2r (hasDiabetes data) in
  k_lnAge k * lnAge + k_lnTotalChol k * lnTC + k_lnHDL k * lnHDL +
  (if onHypertensionMeds data then k_lnSBPTreated k else k_lnSBPUntreated k) * lnSBP +
  k_lnAgeTotalChol k * (lnAge * lnTC) + k_lnAgeHDL k * (lnAge * lnHDL) +
  k_smoker k * smoker + k_lnAgeSmoker k * (lnAge * smoker) +
  k_diabetes k * diabetes.

Definition pceMale : PCECoeffs :=
  mkPCECoeffs 12.344 11.853 (-7.990) 1.797 1.764 (-2.664) 1.769 7.837 (-1.795) 0.658.

Definition pceFemale : PCECoeffs :=
  mkPCECoeffs (-29.799) 13.540 (-13.578) 2.019 1.957 (-3.114) 3.149 7.574 (-1.665) 0.661.

(** ** Sample records *)

(** A woman of age [a] whose cholesterol, HDL and SBP are all 1, so that
    only the age terms of the predictor are non-zero. *)
Definition femaleAtAge (a : R) : MedicalData :=
  {| age := a; gender := FEMALE; height := 160; weight := 60; bmi := 23.4;
     systolicBP := 1; diastolicBP := 1;
     totalCholesterol := 1; hdlCholesterol := 1;
     hasDiabetes := false; isSmoker := false;
     onHypertensionMeds := false; onStatins := false;
     eGFR := 90; acr := 10; useFullKfre := false;
     phosphate := None; bicarbonate := None; calcium := None; albumin := None |}.

(** The golden scenario of the spec: 50-year-old man, SBP 145 on
    antihypertensives, total cholesterol 250, HDL 38. *)
Definition goldenRecord : MedicalData :=
  {| age := 50; gender := MALE; height := 175; weight := 80; bmi := 26.1;
     systolicBP := 145; diastolicBP := 90;
     totalCholesterol := 250; hdlCholesterol := 38;
     hasDiabetes := false; isSmoker := false;
     onHypertensionMeds := true; onStatins := false;
     eGFR := 60; acr := 30; useFullKfre := false;
     phosphate := None; bicarbonate := None; calcium := None; albumin := None |}.

(** Same age, sex, diabetes status, eGFR and ACR as [goldenRecord];
    every other field differs. *)
Definition goldenRecordVariant : MedicalData :=
  {| age := 50; gender := MALE; height := 160; weight := 95; bmi := 37.1;
     systolicBP := 170; diastolicBP := 100;
     totalCholesterol := 300; hdlCholesterol := 30;
     hasDiabetes := false; isSmoker := true;
     onHypertensionMeds := false; onStatins := true;
     eGFR := 60; acr := 30; useFullKfre := true;
     phosphate := Some 4.5; bicarbonate := Some 22; calcium := Some 9.1;
     albumin := Some 3.9 |}.

(** A 30-year-old woman with total cholesterol 160, HDL 90 and SBP 115,
    non-smoker, non-diabetic, untreated. *)
Definition youngWoman : MedicalData :=
  {| age := 30; gender := FEMALE; height := 165; weight := 58; bmi := 21.3;
     systolicBP := 115; diastolicBP := 75;
     totalCholesterol := 160; hdlCholesterol := 90;
     hasDiabetes := false; isSmoker := false;
     onHypertensionMeds := false; onStatins := false;
     eGFR := 100; acr := 5; useFullKfre := false;
     phosphate := None; bicarbonate := None; calcium := None; albumin := None |}.

(** A 79-year-old woman with SBP 116, diastolic 76, total cholesterol 300
    and HDL 30, non-smoker, non-diabetic, untreated. *)
Definition elderlyWoman : MedicalData :=
  {| age := 79; gender := FEMALE; height := 158; weight := 65; bmi := 26.0;
     systolicBP := 116; diastolicBP := 76;
     totalCholesterol := 300; hdlCholesterol := 30;
     hasDiabetes := false; isSmoker := false;
     onHypertensionMeds := false; onStatins := false;
     eGFR := 70; acr := 20; useFullKfre := false;
     phosphate := None; bicarbonate := None; calcium := None; albumin := None |}.

(** A 75-year-old woman with SBP 115.2, diastolic 76, total cholesterol 161
    and HDL 20, non-smoker, non-diabetic, untreated. *)
Definition womanAt75 : MedicalData :=
  {| age := 75; gender := FEMALE; height := 160; weight := 62; bmi := 24.2;
     systolicBP := 115.2; diastolicBP := 76;
     totalCholesterol := 161; hdlCholesterol := 20;
     hasDiabetes := false; isSmoker := false;
     onHypertensionMeds := false; onStatins := false;
     eGFR := 75; acr := 15; useFullKfre := false;
     phosphate := None; bicarbonate := None; calcium := None; albumin := None |}.

(** A 79-year-old male smoker with SBP 115.1, diastolic 76, total
    cholesterol 160.2 and HDL 54.8, non-diabetic, untreated. *)
Definition smokingManAt79 : MedicalData :=
  {| age := 79; gender := MALE; height := 172; weight := 70; bmi := 23.7;
     systolicBP := 115.1; diastolicBP := 76;
     totalCholesterol := 160.2; hdlCholesterol := 54.8;
     hasDiabetes := false; isSmoker := true;
     onHypertensionMeds := false; onStatins := false;
     eGFR := 65; acr := 25; useFullKfre := false;
     phosphate := None; bicarbonate := None; calcium := None; albumin := None |}.

(** [goldenRecord] moved to the optimal constants, but on statins. *)
Definition optimalOnStatins : MedicalData := withStatins (optimalData goldenRecord) true.

(** ** KFRE linear predictor *)

(** The [lp] of [calculateRenalRisk]. *)
Definition renalLp (data : MedicalData) : R :=
  let isMale := match gender data with MALE => 1 | FEMALE => 0 end in
  -0.2201 * (age data / 10 - 7.036) +
  0.2467 * (isMale - 0.5642) -
  0.5567 * (eGFR data / 5 - 7.222) +
  0.4510 * (Math_log (acr data) - 5.137).

(** One horizon of [calculateRenalRisk]: [(1 - Math.pow(s, Math.exp(lp))) * 100]. *)
Definition renalHorizon (s lp : R) : R := (1 - Math_pow s (Math_exp lp)) * 100.

(** ** App.tsx *)

(** [x < y] as a JavaScript boolean. *)
Definition ltb (x y : R) : bool := if Rlt_dec x y then true else false.

(** *** Number(x.toFixed(1))

    [toFixed] picks the integer [n] closest to [x * 10], the larger one on
    a tie, after taking the sign apart; from [10^21] on it prints [x] as
    is. [up y - 1] is the floor of [y]. *)
Definition roundTenths (x : R) : R := IZR (up (x * 10 + / 2) - 1) / 10.

Definition toFixed1 (x : R) : R :=
  if Rle_dec (10 ^ 21) (Rabs x) then x
  else if Rlt_dec x 0 then - roundTenths (- x)
  else roundTenths x.

(** *** The form: [handleInputChange] *)

(** The fields the form writes, and the values its call sites pass:
    numbers from [parseInt] / [parseFloat], [Gender.MALE] / [Gender.FEMALE]
    from the two buttons, [!formData[k]] from the four toggles. *)
Inductive NumField :=
  f_age | f_height | f_weight | f_systolicBP | f_diastolicBP
| f_totalCholesterol | f_hdlCholesterol | f_eGFR | f_acr.

Inductive BoolField := f_hasDiabetes | f_isSmoker | f_onHypertensionMeds | f_onStatins.

Scheme Equality for NumField.
Scheme Equality for BoolField.

Inductive FieldUpdate :=
| setNum (f : NumField) (v : R)
| setGender (g : Gender)
| setBool (f : BoolField) (b : bool).

(** [setFormData(prev => ({ ...prev, [field]: value }))] *)
Definition handleInputChange (prev : MedicalData) (u : FieldUpdate) : MedicalData :=
  let num f old :=
    match u with setNum f' v => if NumField_beq f f' then v else old | _ => old end in
  let flag f old :=
    match u with setBool f' b => if BoolField_beq f f' then b else old | _ => old end in
  {| age := num f_age (age prev);
     gender := match u with setGender g => g | _ => gender prev end;
     height := num f_height (height prev);
     weight := num f_weight (weight prev);
     bmi := bmi prev;
     systolicBP := num f_systolicBP (systolicBP prev);
     diastolicBP := num f_diastolicBP (diastolicBP prev);
     totalCholesterol := num f_totalCholesterol (totalCholesterol prev);
     hdlCholesterol := num f_hdlCholesterol (hdlCholesterol prev);
     hasDiabetes := flag f_hasDiabetes (hasDiabetes prev);
     isSmoker := flag f_isSmoker (isSmoker prev);
     onHypertensionMeds := flag f_onHypertensionMeds (onHypertensionMeds prev);
     onStatins := flag f_onStatins (onStatins prev);
     eGFR := num f_eGFR (eGFR prev);
     acr := num f_acr (acr prev);
     useFullKfre := useFullKfre prev;
     phosphate := phosphate prev; bicarbonate := bicarbonate prev;
     calcium := calcium prev; albumin := albumin prev |}.

(** [formData[i.k]] for a toggle key. *)
Definition boolFieldValue (data : MedicalData) (f : BoolField) : bool :=
  match f with
  | f_hasDiabetes => hasDiabetes data
  | f_isSmoker => isSmoker data
  | f_onHypertensionMeds => onHypertensionMeds data
  | f_onStatins => onStatins data
  end.

(** The toggle buttons: [handleInputChange(i.k, !formData[i.k])]. *)
Definition toggleField (data : MedicalData) (f : BoolField) : MedicalData :=
  handleInputChange data (setBool f (negb (boolFieldValue data f))).

(** *** bmiValue *)

Definition bmiValue (formData : MedicalData) : R :=
  let hM := height formData / 100 in
  toFixed1 (weight formData / (hM * hM)).

(** *** kdigoStage

    The [desc] string is omitted: it is set together with [stage] in
    every branch. *)
Inductive GfrStage := G1 | G2 | G3a | G3b | G4 | G5.
Inductive AcrStage := A1 | A2 | A3.

Record KdigoStage := mkKdigoStage { stage : GfrStage; acrStage : AcrStage }.

Definition kdigoStage (formData : MedicalData) : KdigoStage :=
  let stage :=
    if ltb (eGFR formData) 15 then G5
    else if ltb (eGFR formData) 30 then G4
    else if ltb (eGFR formData) 45 then G3b
    else if ltb (eGFR formData) 60 then G3a
    else if ltb (eGFR formData) 90 then G2
    else G1 in
  let acrStage :=
    if gtb (acr formData) 300 then A3
    else if gtb (acr formData) 30 then A2
    else A1 in
  mkKdigoStage stage acrStage.

(** Severity order of the stages, used to state monotonicity. *)
Definition gfrRank (s : GfrStage) : nat :=
  match s with G1 => 1 | G2 => 2 | G3a => 3 | G3b => 4 | G4 => 5 | G5 => 6 end%nat.

Definition acrRank (s : AcrStage) : nat :=
  match s with A1 => 1 | A2 => 2 | A3 => 3 end%nat.

(** *** The formal report *)

(** The albuminuria category printed next to [kdigoStage.acrStage]:
    [formData.acr < 30 ? 'A1' : formData.acr < 300 ? 'A2' : 'A3']. *)
Definition albuminuriaLabel (formData : MedicalData) : AcrStage :=
  if ltb (acr formData) 30 then A1
  else if ltb (acr formData) 300 then A2
  else A3.

Inductive CvClass := Baixo | Limitrofe | Elevado.

(** [tenYear < 5 ? 'Baixo' : tenYear < 7.5 ? 'Limítrofe' : 'Elevado'] *)
Definition cvClassification (tenYear : R) : CvClass :=
  if ltb tenYear 5 then Baixo
  else if ltb tenYear 7.5 then Limitrofe
  else Elevado.

Definition cvClassRank (c : CvClass) : nat :=
  match c with Baixo => 0 | Limitrofe => 1 | Elevado => 2 end%nat.

Definition levelRank (l : CombinedLevel) : nat :=
  match l with low => 0 | moderate => 1 | high => 2 | very_high => 3 end%nat.

(** The items of "Principais Fatores de Risco", in order. *)
Inductive RiskFactorItem := colesterolElevado | tfgReduzida | albuminuria.

Definition riskFactorList (formData : MedicalData) : list RiskFactorItem :=
  (if gtb (totalCholesterol formData) 200 then [colesterolElevado] else []) ++
  (if ltb (eGFR formData) 60 then [tfgReduzida] else []) ++
  (if gtb (acr formData) 30 then [albuminuria] else []).

(** *** Chart data *)




(** [compareData]: the [Risco] values of 'Atual' and 'Meta'. *)
Definition compareData (formData : MedicalData) : R * R :=
  (toFixed1 (CvTimeline.tenYear (cvTimeline (getCombinedResults formData))),
   toFixed1 (CVRisk.tenYear (calculateOptimalRisk formData))).

(** *** Navigation between the views *)

Inductive View := home | calc | results.

Record NavState := mkNavState { view : View; step : nat }.

(** The buttons that change [view] or [step]; a button of a view that is
    not shown, or a disabled one, leaves the state as it is. *)
Inductive NavEvent :=
| clickLogo            (* setView('home') *)
| clickNovoExame       (* setView('calc'); setStep(1) *)
| clickIniciar         (* home: setView('calc') *)
| clickVoltar          (* calc, disabled at step 1: setStep(s => s - 1) *)
| clickProximo         (* calc, shown while step < 3: setStep(s => s + 1) *)
| clickGerarAnalises   (* calc, shown otherwise: setView('results') *)
| clickEditarDados.    (* results: setView('calc') *)

Definition navStep (s : NavState) (e : NavEvent) : NavState :=
  match e, view s with
  | clickLogo, _ => mkNavState home (step s)
  | clickNovoExame, _ => mkNavState calc 1
  | clickIniciar, home => mkNavState calc (step s)
  | clickVoltar, calc =>
      if Nat.eqb (step s) 1 then s else mkNavState calc (step s - 1)
  | clickProximo, calc =>
      if Nat.ltb (step s) 3 then mkNavState calc (step s + 1) else s
  | clickGerarAnalises, calc =>
      if Nat.ltb (step s) 3 then s else mkNavState results (step s)
  | clickEditarDados, results => mkNavState calc (step s)
  | _, _ => s
  end.

(** [useState('home')], [useState(1)] *)
Definition navInit : NavState := mkNavState home 1.

Definition runNav (evs : list NavEvent) : NavState := fold_left navStep evs navInit.

(** *** AI provider settings and localStorage *)

Definition Storage := string -> option string.

Definition setItem (st : Storage) (k v : string) : Storage :=
  fun k' => if String.eqb k' k then Some v else st k'.

(** [localStorage.getItem(k) || d] *)
Definition getItemOr (st : Storage) (k d : string) : string :=
  match st k with
  | Some v => if String.eqb v "" then d else v
  | None => d
  end.

Inductive Provider := openai | groq | gemini.

Definition providerName (p : Provider) : string :=
  match p with openai => "openai" | groq => "groq" | gemini => "gemini" end.

(** [`${prov}_api_key`] *)
Definition apiKeyItem (prov : string) : string := (prov ++ "_api_key")%string.

(** The state the settings panel reads and writes: [provider], the
    [apiKeys] object (a string-keyed object) and localStorage. *)
Record Settings := mkSettings {
  storage : Storage;
  provider : string;
  apiKeys : string -> option string
}.

(** The two [useState] initialisers, reading localStorage. *)
Definition initSettings (st : Storage) : Settings :=
  mkSettings st (getItemOr st "ai_provider" "openai")
    (fun p =>
       if String.eqb p "openai" then Some (getItemOr st (apiKeyItem "openai") "")
       else if String.eqb p "groq" then Some (getItemOr st (apiKeyItem "groq") "")
       else if String.eqb p "gemini" then Some (getItemOr st (apiKeyItem "gemini") "")
       else None).

Definition saveApiKey (s : Settings) (key prov : string) : Settings :=
  mkSettings (setItem (storage s) (apiKeyItem prov) key) (provider s)
    (fun p => if String.eqb p prov then Some key else apiKeys s p).

Definition changeProvider (s : Settings) (prov : string) : Settings :=
  mkSettings (setItem (storage s) "ai_provider" prov) prov (apiKeys s).

(** What the panel does: a provider button calls [changeProvider(p)], the
    key input calls [saveApiKey(e.target.value, provider)]. *)
Inductive SettingsEvent := clickProvider (p : Provider) | typeKey (key : string).

Definition settingsStep (s : Settings) (e : SettingsEvent) : Settings :=
  match e with
  | clickProvider p => changeProvider s (providerName p)
  | typeKey key => saveApiKey s key (provider s)
  end.

(** *** Invariants used in the statements *)

(** The step is one of the three form steps, and the results view only
    follows the last one. *)
Definition navInvariant (s : NavState) : Prop :=
  (1 <= step s <= 3)%nat /\ (view s = results -> step s = 3%nat).

(** The in-memory settings agree with what localStorage holds. *)
Definition settingsSynced (s : Settings) : Prop :=
  provider s = getItemOr (storage s) "ai_provider" "openai" /\
  forall p, apiKeys s (providerName p) =
            Some (getItemOr (storage s) (apiKeyItem (providerName p)) "").

(** ** Properties *)

(** *** Elementary facts *)


Lemma gtb_false (x y : R) : gtb x y = false <-> x <= y.
Proof.
  unfold gtb; destruct (Rlt_dec y x); split; intro H; try lra; congruence.
Qed.

Lemma clamp_bounds (x : R) : 0.1 <= Math_min (Math_max x 0.1) 100 <= 100.
Proof.
  unfold Math_min, Math_max, Rmin, Rmax.
  destruct (Rle_dec x 0.1); destruct (Rle_dec _ 100); lra.
Qed.

Lemma calculateRiskAtTime_bounds (s10 rf : R) (st : bool) (t : R) :
  0.1 <= calculateRiskAtTime s10 rf st t <= 100.
Proof. apply clamp_bounds. Qed.

(** A positive power of a survival probability is again in (0,1). *)
Lemma Rpower_survival (s e : R) : 0 < s < 1 -> 0 < e -> 0 < Rpower s e < 1.
Proof.
  intros [Hs0 Hs1] He. unfold Rpower. split; [apply exp_pos |].
  rewrite <- exp_0. apply exp_increasing.
  assert (ln s < 0) by (rewrite <- ln_1; apply ln_increasing; lra).
  nra.
Qed.

Lemma renal_horizon_bounds (s lp : R) :
  0 < s < 1 -> 0 <= (1 - Math_pow s (Math_exp lp)) * 100 <= 100.
Proof.
  intros Hs. unfold Math_pow, Math_exp.
  pose proof (Rpower_survival s (exp lp) Hs (exp_pos lp)). lra.
Qed.

(** *** C1: combined stratification *)

(** C1. [getCombinedResults] sets [combinedLevel] from the two scalars
    [cvRes.tenYear] and [renalRes.fiveYear] by four mutually exclusive
    tiers checked from the most severe down with strict [>]:
    very_high iff CV > 20 or renal > 15; high iff not very_high and
    (CV > 10 or renal > 10); moderate iff neither of these and (CV > 5 or
    renal > 5); low otherwise. At the boundary, a record whose ten-year CV
    risk is exactly 20 is 'high' (its renal risk not reaching the renal
    very_high threshold), and one whose ten-year CV risk is 20.0001 is
    'very_high'. *)
Theorem getCombinedResults_combinedLevel :
  (forall d, combinedLevel (getCombinedResults d) =
             stratify (CVRisk.tenYear (calculateCVRisk d))
                      (RenalRisk.fiveYear (calculateRenalRisk d))) /\
  (forall cv rn, stratify cv rn = very_high <-> (cv > 20 \/ rn > 15)) /\
  (forall cv rn, stratify cv rn = high <->
     ~ (cv > 20 \/ rn > 15) /\ (cv > 10 \/ rn > 10)) /\
  (forall cv rn, stratify cv rn = moderate <->
     ~ (cv > 20 \/ rn > 15) /\ ~ (cv > 10 \/ rn > 10) /\ (cv > 5 \/ rn > 5)) /\
  (forall cv rn, stratify cv rn = low <->
     ~ (cv > 20 \/ rn > 15) /\ ~ (cv > 10 \/ rn > 10) /\ ~ (cv > 5 \/ rn > 5)) /\
  (forall d, CVRisk.tenYear (calculateCVRisk d) = 20 ->
     RenalRisk.fiveYear (calculateRenalRisk d) <= 15 ->
     combinedLevel (getCombinedResults d) = high) /\
  (forall d, CVRisk.tenYear (calculateCVRisk d) = 20.0001 ->
     combinedLevel (getCombinedResults d) = very_high).
Proof.
  assert (Hst : forall cv rn, stratify cv rn =
    if Rlt_dec 20 cv then very_high else if Rlt_dec 15 rn then very_high
    else if Rlt_dec 10 cv then high else if Rlt_dec 10 rn then high
    else if Rlt_dec 5 cv then moderate else if Rlt_dec 5 rn then moderate
    else low).
  { intros cv rn. unfold stratify, gtb.
    repeat (destruct Rlt_dec; simpl); reflexivity. }
  assert (Hcl : forall d, combinedLevel (getCombinedResults d) =
             stratify (CVRisk.tenYear (calculateCVRisk d))
                      (RenalRisk.fiveYear (calculateRenalRisk d)))
    by reflexivity.
  split; [exact Hcl |].
  repeat split; intros;
    repeat match goal with
    | H : _ = ?l |- _ => progress (rewrite ?Hcl, ?Hst in H)
    | |- _ => progress (rewrite ?Hcl, ?Hst)
    end;
    repeat match goal with
    | H : context [Rlt_dec ?a ?b] |- _ => destruct (Rlt_dec a b)
    | |- context [Rlt_dec ?a ?b] => destruct (Rlt_dec a b)
    end;
    try discriminate; try reflexivity;
    repeat match goal with H : _ /\ _ |- _ => destruct H end;
    try tauto; try lra.
Qed.

(** *** C2: cardiovascular outputs are clamped to [0.1, 100] *)

(** C2. For every record with positive age, total cholesterol, HDL and
    systolic BP, the fiveYear, tenYear and fifteenYear outputs of
    [calculateCVRisk] are real numbers (no error result) in [0.1, 100]. *)
Theorem calculateCVRisk_in_range (d : MedicalData) :
  0 < age d -> 0 < totalCholesterol d -> 0 < hdlCholesterol d ->
  0 < systolicBP d ->
  0.1 <= CVRisk.fiveYear (calculateCVRisk d) <= 100 /\
  0.1 <= CVRisk.tenYear (calculateCVRisk d) <= 100 /\
  0.1 <= CVRisk.fifteenYear (calculateCVRisk d) <= 100.
Proof.
  intros _ _ _ _. unfold calculateCVRisk.
  destruct (cvCoefficients d) as [[i m] s]. simpl.
  repeat split; apply calculateRiskAtTime_bounds.
Qed.

Lemma calculateCVRisk_in_range_witness :
  (0 < age goldenRecord /\ 0 < totalCholesterol goldenRecord /\
   0 < hdlCholesterol goldenRecord /\ 0 < systolicBP goldenRecord) /\
  (0.1 <= CVRisk.fiveYear (calculateCVRisk goldenRecord) <= 100 /\
   0.1 <= CVRisk.tenYear (calculateCVRisk goldenRecord) <= 100 /\
   0.1 <= CVRisk.fifteenYear (calculateCVRisk goldenRecord) <= 100).
Proof.
  split; [simpl; lra |].
  apply calculateCVRisk_in_range; simpl; lra.
Defined.

(** *** C7: renal outputs lie in [0, 100] without a clamp *)

(** C7. For every record with positive ACR, each renal output equals
    (1 - S_t ^ exp(lp)) * 100 for the fixed baseline survival S_t in (0,1)
    of its horizon (0.9832, 0.9365, 0.8200) and the KFRE linear predictor
    lp, and therefore lies in [0, 100]. *)
Theorem calculateRenalRisk_in_range (d : MedicalData) :
  0 < acr d ->
  let lp := -0.2201 * (age d / 10 - 7.036) +
            0.2467 * ((match gender d with MALE => 1 | FEMALE => 0 end) - 0.5642) -
            0.5567 * (eGFR d / 5 - 7.222) +
            0.4510 * (ln (acr d) - 5.137) in
  RenalRisk.twoYear (calculateRenalRisk d) = (1 - Rpower 0.9832 (exp lp)) * 100 /\
  RenalRisk.fiveYear (calculateRenalRisk d) = (1 - Rpower 0.9365 (exp lp)) * 100 /\
  RenalRisk.tenYear (calculateRenalRisk d) = (1 - Rpower 0.8200 (exp lp)) * 100 /\
  0 <= RenalRisk.twoYear (calculateRenalRisk d) <= 100 /\
  0 <= RenalRisk.fiveYear (calculateRenalRisk d) <= 100 /\
  0 <= RenalRisk.tenYear (calculateRenalRisk d) <= 100.
Proof.
  intros _ lp. unfold calculateRenalRisk. simpl.
  repeat split; try reflexivity;
    apply renal_horizon_bounds; lra.
Qed.

Lemma calculateRenalRisk_in_range_witness :
  0 < acr goldenRecord /\
  0 <= RenalRisk.twoYear (calculateRenalRisk goldenRecord) <= 100.
Proof.
  split; [simpl; lra |].
  apply (calculateRenalRisk_in_range goldenRecord); simpl; lra.
Defined.

(** *** C8: long-horizon extrapolation *)

(** C8. For every record, [cv30y.total] of [getCombinedResults] is
    min(2.5 * ten-year CV risk, 100). *)
Theorem getCombinedResults_cv30y (d : MedicalData) :
  Cv30y.total (cv30y (getCombinedResults d)) =
  Rmin (2.5 * CVRisk.tenYear (calculateCVRisk d)) 100.
Proof.
  unfold getCombinedResults, Math_min. simpl. now rewrite Rmult_comm.
Qed.

(** *** C9: the optimal counterfactual reads only age, sex and diabetes *)

(** C9. Two records that agree on age, gender and hasDiabetes get the same
    [calculateOptimalRisk] result (all of fiveYear, tenYear, fifteenYear
    and total), whatever their other fields. *)
Theorem calculateOptimalRisk_noninterference (d1 d2 : MedicalData) :
  age d1 = age d2 -> gender d1 = gender d2 ->
  hasDiabetes d1 = hasDiabetes d2 ->
  calculateOptimalRisk d1 = calculateOptimalRisk d2.
Proof.
  intros Ha Hg Hd. unfold calculateOptimalRisk, calculateCVRisk, cvCoefficients.
  simpl. rewrite Ha, Hg, Hd. reflexivity.
Qed.

Lemma calculateOptimalRisk_noninterference_witness :
  (age goldenRecord = age goldenRecordVariant /\
   gender goldenRecord = gender goldenRecordVariant /\
   hasDiabetes goldenRecord = hasDiabetes goldenRecordVariant) /\
  calculateOptimalRisk goldenRecord = calculateOptimalRisk goldenRecordVariant.
Proof.
  split; [repeat split; reflexivity |].
  apply calculateOptimalRisk_noninterference; reflexivity.
Defined.

(** *** C10: the renal model reads only age, sex, eGFR and ACR *)

(** C10. Two records that agree on age, gender, eGFR and acr get the same
    [calculateRenalRisk] result; in particular useFullKfre, phosphate,
    bicarbonate, calcium and albumin have no effect on it. *)
Theorem calculateRenalRisk_noninterference (d1 d2 : MedicalData) :
  age d1 = age d2 -> gender d1 = gender d2 ->
  eGFR d1 = eGFR d2 -> acr d1 = acr d2 ->
  calculateRenalRisk d1 = calculateRenalRisk d2.
Proof.
  intros Ha Hg He Hc. unfold calculateRenalRisk.
  rewrite Ha, Hg, He, Hc. reflexivity.
Qed.

Lemma calculateRenalRisk_noninterference_witness :
  (age goldenRecord = age goldenRecordVariant /\
   gender goldenRecord = gender goldenRecordVariant /\
   eGFR goldenRecord = eGFR goldenRecordVariant /\
   acr goldenRecord = acr goldenRecordVariant) /\
  calculateRenalRisk goldenRecord = calculateRenalRisk goldenRecordVariant.
Proof.
  split; [repeat split; reflexivity |].
  apply calculateRenalRisk_noninterference; reflexivity.
Defined.

(** *** C5: terms of the PCE linear predictor *)

Lemma modelAge_mid (d : MedicalData) : 30 <= age d <= 79 -> modelAge d = age d.
Proof.
  intros H. unfold modelAge, Rmin, Rmax.
  destruct (Rle_dec (age d) 30); destruct (Rle_dec _ 79); lra.
Qed.

Lemma linearPredictor_femaleAtAge (a : R) :
  30 <= a <= 79 ->
  linearPredictor (femaleAtAge a) = -29.799 * ln a + 4.884 * ln a * ln a + 29.182.
Proof.
  intros H. pose proof (modelAge_mid (femaleAtAge a) H) as Hm.
  unfold modelAge in Hm. cbn [femaleAtAge age] in Hm.
  unfold linearPredictor, cvCoefficients, Math_min, Math_max, Math_log, b2r.
  cbn [femaleAtAge age gender totalCholesterol hdlCholesterol systolicBP
       isSmoker hasDiabetes onHypertensionMeds].
  rewrite Hm, ln_1. lra.
Qed.

Lemma pceCombination_femaleAtAge (k : PCECoeffs) (a : R) :
  30 <= a <= 79 -> pceCombination k (femaleAtAge a) = k_lnAge k * ln a.
Proof.
  intros H. unfold pceCombination, b2r.
  rewrite (modelAge_mid (femaleAtAge a) H).
  cbn [femaleAtAge age totalCholesterol hdlCholesterol systolicBP
       isSmoker hasDiabetes onHypertensionMeds].
  rewrite ln_1. lra.
Qed.

(** C5 as stated fails: there are no coefficient vectors (male and female)
    and mean constants that write [indivSum - meanSum] as a combination of
    the nine listed terms only. The female predictor also has the term
    4.884 * ln(age) * ln(age), which no choice of coefficients reproduces
    on three women of ages 30, 50 and 79. *)
Lemma pce_terms_counterexample :
  ~ (exists (kM kF : PCECoeffs) (mM mF : R),
       forall d, linearPredictor d =
         match gender d with
         | MALE => pceCombination kM d - mM
         | FEMALE => pceCombination kF d - mF
         end).
Proof.
  intros [kM [kF [mM [mF H]]]].
  assert (E : forall a, 30 <= a <= 79 ->
            -29.799 * ln a + 4.884 * ln a * ln a + 29.182 = k_lnAge kF * ln a - mF).
  { intros a Ha. rewrite <- linearPredictor_femaleAtAge, <- pceCombination_femaleAtAge
      by exact Ha. apply (H (femaleAtAge a)). }
  pose proof (E 30 ltac:(lra)) as E1.
  pose proof (E 50 ltac:(lra)) as E2.
  pose proof (E 79 ltac:(lra)) as E3.
  pose proof (ln_increasing 30 50 ltac:(lra) ltac:(lra)) as L12.
  pose proof (ln_increasing 50 79 ltac:(lra) ltac:(lra)) as L23.
  set (x1 := ln 30) in *. set (x2 := ln 50) in *. set (x3 := ln 79) in *.
  set (c := k_lnAge kF) in *.
  assert (F12 : (4.884 * (x1 + x2) - 29.799 - c) * (x2 - x1) = 0) by nra.
  assert (F23 : (4.884 * (x2 + x3) - 29.799 - c) * (x3 - x2) = 0) by nra.
  apply Rmult_integral in F12. apply Rmult_integral in F23.
  destruct F12; destruct F23; lra.
Qed.

(** C5 (amended). For every record, [indivSum - meanSum] of
    [calculateCVRisk] is, for each sex, a combination with fixed
    sex-specific coefficients of ln(age), ln(total cholesterol), ln(HDL),
    ln(SBP) (coefficient selected by onHypertensionMeds),
    ln(age)*ln(total cholesterol), ln(age)*ln(HDL), the smoking indicator,
    ln(age)*smoking and the diabetes indicator, minus a sex-specific mean;
    the female predictor has in addition the term ln(age)*ln(age) (with
    coefficient 4.884). Age is clamped to [30, 79] before any logarithm. *)
Theorem pce_terms_amended :
  exists (kM kF : PCECoeffs) (mM mF : R),
    forall d, linearPredictor d =
      match gender d with
      | MALE => pceCombination kM d - mM
      | FEMALE => pceCombination kF d + 4.884 * (ln (modelAge d) * ln (modelAge d)) - mF
      end.
Proof.
  exists pceMale, pceFemale, 61.1816, (-29.182).
  intros d. unfold linearPredictor, cvCoefficients, pceCombination, modelAge,
    Math_min, Math_max, Math_log.
  destruct (gender d); destruct (onHypertensionMeds d);
    cbn [k_lnAge k_lnTotalChol k_lnHDL k_lnSBPTreated k_lnSBPUntreated
         k_lnAgeTotalChol k_lnAgeHDL k_smoker k_lnAgeSmoker k_diabetes
         pceMale pceFemale]; lra.
Qed.

(** *** Enclosures of exp and ln at concrete points *)

Lemma exp_lb_double (y a b : R) :
  0 <= a -> a <= exp y -> b <= a * a -> b <= exp (y + y).
Proof.
  intros Ha Hy Hb. rewrite exp_plus.
  pose proof (Rmult_le_compat a (exp y) a (exp y) Ha Ha Hy Hy). lra.
Qed.

Lemma exp_ub_double (y a b : R) :
  exp y <= a -> a * a <= b -> exp (y + y) <= b.
Proof.
  intros Hy Hb. rewrite exp_plus. pose proof (exp_pos y) as Hp.
  pose proof (Rmult_le_compat (exp y) a (exp y) a
                (Rlt_le _ _ Hp) (Rlt_le _ _ Hp) Hy Hy). lra.
Qed.

Lemma exp_lb_base (y a : R) : a <= 1 + y -> a <= exp y.
Proof. intros H. pose proof (exp_ineq1_le y). lra. Qed.

Lemma exp_ub_base (y a : R) : y < 1 -> 1 <= (1 - y) * a -> exp y <= a.
Proof.
  intros Hy Ha. pose proof (exp_ineq1_le (- y)) as H.
  pose proof (exp_pos y) as Hp.
  assert (E : exp y * exp (- y) = 1) by (rewrite <- exp_plus, Rplus_opp_r; apply exp_0).
  assert (Hle : (1 - y) * exp y <= 1) by nra.
  nra.
Qed.

Lemma ln_le_of_exp (c h : R) : 0 < c -> c <= exp h -> ln c <= h.
Proof.
  intros Hc H. rewrite <- (ln_exp h).
  destruct (Rle_lt_or_eq_dec _ _ H) as [Hlt | Heq].
  - left. now apply ln_increasing.
  - rewrite Heq. lra.
Qed.

Lemma ln_ge_of_exp (c l : R) : exp l <= c -> l <= ln c.
Proof.
  intros H. rewrite <- (ln_exp l).
  destruct (Rle_lt_or_eq_dec _ _ H) as [Hlt | Heq].
  - left. apply ln_increasing; [apply exp_pos | exact Hlt].
  - rewrite Heq. lra.
Qed.

(** One halving step of a lower (resp. upper) enclosure of [exp y]:
    [exp y = exp (y/2) * exp (y/2)], with [a] an enclosure of [exp (y/2)]. *)
Ltac exp_lb_step a :=
  match goal with
  | |- _ <= exp ?y =>
      replace y with (y / 2 + y / 2) by lra;
      apply (exp_lb_double (y / 2) a); [lra | | lra]
  end.

Ltac exp_ub_step a :=
  match goal with
  | |- exp ?y <= _ =>
      replace y with (y / 2 + y / 2) by lra;
      apply (exp_ub_double (y / 2) a); [ | lra]
  end.

Ltac exp_lb_finish := apply exp_lb_base; lra.
Ltac exp_ub_finish := apply exp_ub_base; lra.
Lemma ln_30_bounds : 3.4006 <= ln 30 <= 3.4017.
Proof.
  split.
  - apply ln_ge_of_exp.
    exp_ub_step 5.476556230258494131485;
    exp_ub_step 2.340204313785122081319;
    exp_ub_step 1.529772634669976727035;
    exp_ub_step 1.236839777283208468462;
    exp_ub_step 1.112132985430793014954;
    exp_ub_step 1.054577159543479310108;
    exp_ub_step 1.026926073066352381484;
    exp_ub_step 1.013373609813454921847;
    exp_ub_step 1.006664596483582967694;
    exp_ub_step 1.003326764560570749102;
    exp_ub_step 1.001662001156363497749;
    exp_ub_step 1.000830655583832273007;
    exp_ub_step 1.000415241579131616644;
    exp_ub_step 1.000207599240843408942;
    exp_ub_finish.
  - apply ln_le_of_exp; [lra |].
    exp_lb_step 5.477635098239651809353;
    exp_lb_step 2.340434809653892455401;
    exp_lb_step 1.529847969457714597323;
    exp_lb_step 1.236870231454259957089;
    exp_lb_step 1.112146677131330531356;
    exp_lb_step 1.054583651082895619605;
    exp_lb_step 1.026929233726889099123;
    exp_lb_step 1.01337516928672033607;
    exp_lb_step 1.006665371057691810215;
    exp_lb_step 1.003327150563410105018;
    exp_lb_step 1.001662193837528293991;
    exp_lb_step 1.000830751844450617944;
    exp_lb_step 1.000415289689462222158;
    exp_lb_step 1.000207623291015625;
    exp_lb_finish.
Qed.

Lemma ln_55_bounds : 4.0068 <= ln 55 <= 4.0079.
Proof.
  split.
  - apply ln_ge_of_exp.
    exp_ub_step 7.416038437909104842673;
    exp_ub_step 2.723240429692006618486;
    exp_ub_step 1.650224357380537096066;
    exp_ub_step 1.2846105858899564183;
    exp_ub_step 1.133406628659792345005;
    exp_ub_step 1.064615718773582802018;
    exp_ub_step 1.031802170366772780621;
    exp_ub_step 1.015776634091753845468;
    exp_ub_step 1.007857447306787452042;
    exp_ub_step 1.003921036390207062007;
    exp_ub_step 1.001958600137853531068;
    exp_ub_step 1.000978821023628616847;
    exp_ub_step 1.000489290809066390002;
    exp_ub_step 1.000244615486165159092;
    exp_ub_finish.
  - apply ln_le_of_exp; [lra |].
    exp_lb_step 7.416482840098179726298;
    exp_lb_step 2.723322022842355623853;
    exp_lb_step 1.650249079030906662561;
    exp_lb_step 1.284620208089109371442;
    exp_lb_step 1.133410873465183133207;
    exp_lb_step 1.064617712357437313179;
    exp_lb_step 1.031803136435161895549;
    exp_lb_step 1.015777109623544280993;
    exp_lb_step 1.007857683218987164255;
    exp_lb_step 1.003921153885596318574;
    exp_lb_step 1.001958658770708123359;
    exp_lb_step 1.000978850311388009478;
    exp_lb_step 1.00048930544578436762;
    exp_lb_step 1.000244622802734375;
    exp_lb_finish.
Qed.

Lemma ln_74_bounds : 4.3035 <= ln 74 <= 4.3046.
Proof.
  split.
  - apply ln_ge_of_exp.
    exp_ub_step 8.601110386340275372937;
    exp_ub_step 2.932764972912128083768;
    exp_ub_step 1.712531743621743229895;
    exp_ub_step 1.308637361388457084844;
    exp_ub_step 1.143956887906383072032;
    exp_ub_step 1.06955920261871575934;
    exp_ub_step 1.034194953874130909424;
    exp_ub_step 1.016953761915521363407;
    exp_ub_step 1.008441253576786873114;
    exp_ub_step 1.004211757338454424209;
    exp_ub_step 1.002103665963983201418;
    exp_ub_step 1.001051280386765801482;
    exp_ub_step 1.000525502117145338624;
    exp_ub_step 1.00026271654858022036;
    exp_ub_step 1.000131349647925105155;
    exp_ub_finish.
  - apply ln_le_of_exp; [lra |].
    exp_lb_step 8.603410056756385273095;
    exp_lb_step 2.93315701195084087389;
    exp_lb_step 1.712646201628007253115;
    exp_lb_step 1.308681092408691924827;
    exp_lb_step 1.14397600167516273157;
    exp_lb_step 1.06956813793005386608;
    exp_lb_step 1.034199273800776687666;
    exp_lb_step 1.016955885867610624975;
    exp_lb_step 1.008442306662910005154;
    exp_lb_step 1.004212281673008620426;
    exp_lb_step 1.00210392758087153424;
    exp_lb_step 1.001051411057829504042;
    exp_lb_step 1.00052556741835913168;
    exp_lb_step 1.000262749190610982477;
    exp_lb_step 1.000131365966796875;
    exp_lb_finish.
Qed.

Lemma ln_79_bounds : 4.3689 <= ln 79 <= 4.37.
Proof.
  split.
  - apply ln_ge_of_exp.
    exp_ub_step 8.887054234269524710285;
    exp_ub_step 2.981116273188539137408;
    exp_ub_step 1.726590939738923551093;
    exp_ub_step 1.31399807448067577109;
    exp_ub_step 1.146297550586528895026;
    exp_ub_step 1.070652861849502037292;
    exp_ub_step 1.034723567842881424185;
    exp_ub_step 1.017213629402831696144;
    exp_ub_step 1.008570091467534890902;
    exp_ub_step 1.004275904056019304282;
    exp_ub_step 1.002135671481670841078;
    exp_ub_step 1.001067266212251513692;
    exp_ub_step 1.000533490799908963093;
    exp_ub_step 1.00026670983288700224;
    exp_ub_step 1.000133346025862194499;
    exp_ub_finish.
  - apply ln_le_of_exp; [lra |].
    exp_lb_step 8.889353415073452573386;
    exp_lb_step 2.981501872391404783467;
    exp_lb_step 1.726702601026420178673;
    exp_lb_step 1.314040562930391497994;
    exp_lb_step 1.146316083342806238407;
    exp_lb_step 1.070661516700215688857;
    exp_lb_step 1.034727750038731535351;
    exp_lb_step 1.017215685112420754866;
    exp_lb_step 1.008571110587855750955;
    exp_lb_step 1.004276411446498005894;
    exp_lb_step 1.002135924636223190363;
    exp_lb_step 1.001067392654572077968;
    exp_lb_step 1.000533553987357326533;
    exp_lb_step 1.000266741418186575174;
    exp_lb_step 1.00013336181640625;
    exp_lb_finish.
Qed.

Lemma ln_90_bounds : 4.4993 <= ln 90 <= 4.5004.
Proof.
  split.
  - apply ln_ge_of_exp.
    exp_ub_step 9.485880798361406926783;
    exp_ub_step 3.0799157128664100711;
    exp_ub_step 1.754968863788303815473;
    exp_ub_step 1.324752378291242704751;
    exp_ub_step 1.150978878299355545889;
    exp_ub_step 1.072836836755410606221;
    exp_ub_step 1.035778372411497403834;
    exp_ub_step 1.017731974741629803253;
    exp_ub_step 1.008827029149016111577;
    exp_ub_step 1.004403817769036614476;
    exp_ub_step 1.002199490006374237167;
    exp_ub_step 1.001099140947775580083;
    exp_ub_step 1.00054941954297069098;
    exp_ub_step 1.000274672049118062132;
    exp_ub_step 1.000137326595262147919;
    exp_ub_finish.
  - apply ln_le_of_exp; [lra |].
    exp_lb_step 9.488167456946040852946;
    exp_lb_step 3.080286911465560354376;
    exp_lb_step 1.755074617064915663176;
    exp_lb_step 1.324792292046159084678;
    exp_lb_step 1.15099621721626830231;
    exp_lb_step 1.072844917598190564458;
    exp_lb_step 1.035782273259293892835;
    exp_lb_step 1.017733891181429553967;
    exp_lb_step 1.008827978984241670684;
    exp_lb_step 1.004404290604257460071;
    exp_lb_step 1.002199725905099946147;
    exp_lb_step 1.001099258767630866408;
    exp_lb_step 1.000549478420548109182;
    exp_lb_step 1.000274701479822546243;
    exp_lb_step 1.00013734130859375;
    exp_lb_finish.
Qed.

Lemma ln_115_bounds : 4.7444 <= ln 115 <= 4.7455.
Proof.
  split.
  - apply ln_ge_of_exp.
    exp_ub_step 10.72279392639970452434;
    exp_ub_step 3.274567746497192951966;
    exp_ub_step 1.809576676048073115185;
    exp_ub_step 1.345205068399637392321;
    exp_ub_step 1.159829758369579596605;
    exp_ub_step 1.076953925834146164103;
    exp_ub_step 1.037763906596363643306;
    exp_ub_step 1.018706977789179396031;
    exp_ub_step 1.009310149453169521644;
    exp_ub_step 1.004644290011728241467;
    exp_ub_step 1.002319455069953354573;
    exp_ub_step 1.001159055829768417209;
    exp_ub_step 1.000579360085829682316;
    exp_ub_step 1.000289638097800992269;
    exp_ub_step 1.000144808564140371936;
    exp_ub_finish.
  - apply ln_le_of_exp; [lra |].
    exp_lb_step 10.72500793178562202744;
    exp_lb_step 3.274905789757259876381;
    exp_lb_step 1.809670077599024643933;
    exp_lb_step 1.345239784424704205653;
    exp_lb_step 1.159844724273341774316;
    exp_lb_step 1.076960874068014494235;
    exp_lb_step 1.037767254285860811211;
    exp_lb_step 1.018708620895033366072;
    exp_lb_step 1.009310963427542169127;
    exp_lb_step 1.004644695117404265054;
    exp_lb_step 1.002319657154045974193;
    exp_lb_step 1.001159156754831850943;
    exp_lb_step 1.000579410519141079804;
    exp_lb_step 1.000289663307154783979;
    exp_lb_step 1.0001448211669921875;
    exp_lb_finish.
Qed.

Lemma ln_116_bounds : 4.753 <= ln 116 <= 4.7541.
Proof.
  split.
  - apply ln_ge_of_exp.
    exp_ub_step 10.76900792644345054051;
    exp_ub_step 3.281616663543054740579;
    exp_ub_step 1.811523299199614142401;
    exp_ub_step 1.345928415332559260698;
    exp_ub_step 1.16014154969665630914;
    exp_ub_step 1.077098672219335859088;
    exp_ub_step 1.037833643807780910141;
    exp_ub_step 1.018741205511871356415;
    exp_ub_step 1.009327105309211121066;
    exp_ub_step 1.00465272871237010395;
    exp_ub_step 1.002323664647488059072;
    exp_ub_step 1.001161158179585020936;
    exp_ub_step 1.000580410651530305551;
    exp_ub_step 1.000290163228415590496;
    exp_ub_step 1.000145071091397015687;
    exp_ub_finish.
  - apply ln_le_of_exp; [lra |].
    exp_lb_step 10.77121804818387712764;
    exp_lb_step 3.281953389093738657091;
    exp_lb_step 1.811616236705152368869;
    exp_lb_step 1.345962940316393840966;
    exp_lb_step 1.160156429244088549505;
    exp_lb_step 1.077105579432252569513;
    exp_lb_step 1.037836971509616518688;
    exp_lb_step 1.018742838752556099993;
    exp_lb_step 1.009327914382910594825;
    exp_lb_step 1.004653131375655741466;
    exp_lb_step 1.002323865512368083845;
    exp_lb_step 1.001161258495537313131;
    exp_lb_step 1.000580460780409859554;
    exp_lb_step 1.000290188285584384575;
    exp_lb_step 1.0001450836181640625;
    exp_lb_finish.
Qed.

Lemma ln_160_bounds : 5.0746 <= ln 160 <= 5.0757.
Proof.
  split.
  - apply ln_ge_of_exp.
    exp_ub_step 12.64796697901936388195;
    exp_ub_step 3.556398034390886888815;
    exp_ub_step 1.885841465868986265253;
    exp_ub_step 1.373259431378130483092;
    exp_ub_step 1.171861523977184977997;
    exp_ub_step 1.082525530404334148975;
    exp_ub_step 1.040444871391240098593;
    exp_ub_step 1.020021995542860878847;
    exp_ub_step 1.009961383193862951792;
    exp_ub_step 1.00496834934930311555;
    exp_ub_step 1.002481096754099955108;
    exp_ub_step 1.00123977985001173;
    exp_ub_step 1.000619697912254638621;
    exp_ub_step 1.000309800967807492081;
    exp_ub_step 1.000154888488681782977;
    exp_ub_finish.
  - apply ln_le_of_exp; [lra |].
    exp_lb_step 12.64995257632970144114;
    exp_lb_step 3.556677181911467972684;
    exp_lb_step 1.885915475813130913787;
    exp_lb_step 1.373286377931832146151;
    exp_lb_step 1.171873021249244455082;
    exp_lb_step 1.082530840784337402557;
    exp_lb_step 1.040447423363784107054;
    exp_lb_step 1.020023246482051558471;
    exp_lb_step 1.009962002494178767246;
    exp_lb_step 1.004968657468569398392;
    exp_lb_step 1.002481250432430480972;
    exp_lb_step 1.00123985659402836268;
    exp_lb_step 1.000619736260497893384;
    exp_lb_step 1.000309820135990614071;
    exp_lb_step 1.0001548980712890625;
    exp_lb_finish.
Qed.

Lemma ln_300_bounds : 5.7032 <= ln 300 <= 5.7043.
Proof.
  split.
  - apply ln_ge_of_exp.
    exp_ub_step 17.31976242475523304138;
    exp_ub_step 4.161701866394952737013;
    exp_ub_step 2.040024967100881522202;
    exp_ub_step 1.428294425915357803894;
    exp_ub_step 1.195112725191794535054;
    exp_ub_step 1.093212113540549154051;
    exp_ub_step 1.045567842629328933423;
    exp_ub_step 1.022530118201575974206;
    exp_ub_step 1.011202313190380302843;
    exp_ub_step 1.005585557369625462762;
    exp_ub_step 1.002788889731844537433;
    exp_ub_step 1.001393473981054331013;
    exp_ub_step 1.000696494438275890882;
    exp_ub_step 1.000348186602182975578;
    exp_ub_step 1.000174078149490422784;
    exp_ub_finish.
  - apply ln_le_of_exp; [lra |].
    exp_lb_step 17.32069060564958636453;
    exp_lb_step 4.161813379483706062316;
    exp_lb_step 2.040052298222696560073;
    exp_lb_step 1.428303993631151533396;
    exp_lb_step 1.195116728035864927411;
    exp_lb_step 1.093213944310931723404;
    exp_lb_step 1.045568718119919520866;
    exp_lb_step 1.02253054630163470773;
    exp_lb_step 1.011202524869095996726;
    exp_lb_step 1.005585662621089679151;
    exp_lb_step 1.002788942211216088134;
    exp_lb_step 1.001393500184226324667;
    exp_lb_step 1.000696507530742971498;
    exp_lb_step 1.000348193146137977018;
    exp_lb_step 1.0001740814208984375;
    exp_lb_finish.
Qed.

Lemma ln_50_bounds : 3.9115 <= ln 50 <= 3.9126.
Proof.
  split.
  - apply ln_ge_of_exp.
    exp_ub_step 7.070869763663403946774;
    exp_ub_step 2.659110709177676179962;
    exp_ub_step 1.630677990646122684082;
    exp_ub_step 1.276980027504785481201;
    exp_ub_step 1.13003540984554350433;
    exp_ub_step 1.063031236533312554536;
    exp_ub_step 1.031034061771633495501;
    exp_ub_step 1.015398474379213106517;
    exp_ub_step 1.007669824088829756655;
    exp_ub_step 1.00382758683392924408;
    exp_ub_step 1.001911965610716341084;
    exp_ub_step 1.000955526290112622346;
    exp_ub_step 1.000477649070738922295;
    exp_ub_step 1.000238796023599017796;
    exp_ub_finish.
  - apply ln_le_of_exp; [lra |].
    exp_lb_step 7.071456351054971419866;
    exp_lb_step 2.659221004552831712584;
    exp_lb_step 1.630711809165810791512;
    exp_lb_step 1.276993269037002712859;
    exp_lb_step 1.130041268731811720138;
    exp_lb_step 1.063033992274852761276;
    exp_lb_step 1.031035398167712164839;
    exp_lb_step 1.015399132443844549516;
    exp_lb_step 1.007670150616680988881;
    exp_lb_step 1.00382774947531759737;
    exp_lb_step 1.001912046776221569038;
    exp_lb_step 1.000955566834123546071;
    exp_lb_step 1.000477669333065897226;
    exp_lb_step 1.00023880615234375;
    exp_lb_finish.
Qed.

Lemma exp_m2_lb : 0.13 <= exp (-2).
Proof.
  exp_lb_step 0.3620552892563165585772;
  exp_lb_step 0.6017103034320723334785;
  exp_lb_step 0.7756998797422056668438;
  exp_lb_step 0.88073825836181640625;
  exp_lb_step 0.9384765625;
  exp_lb_step 0.96875;
  exp_lb_finish.
Qed.

Lemma exp_m4_2_ub : exp (-4.2) <= / 60.
Proof.
  exp_ub_step 0.1266557549376003372449;
  exp_ub_step 0.3558872784149502824778;
  exp_ub_step 0.5965628872256053127781;
  exp_ub_step 0.7723748359608858416877;
  exp_ub_step 0.8788485853438496840553;
  exp_ub_step 0.9374692450122562202321;
  exp_ub_step 0.9682299546142208774584;
  exp_ub_finish.
Qed.


(** *** Survival algebra shared by the CV claims *)

Lemma calculateCVRisk_unfold (d : MedicalData) :
  calculateCVRisk d =
  CVRisk.mk (cvRiskAtTime d 5) (cvRiskAtTime d 10) (cvRiskAtTime d 15)
            (cvRiskAtTime d 10).
Proof.
  unfold calculateCVRisk, cvRiskAtTime, linearPredictor, baselineS10.
  destruct (cvCoefficients d) as [[i m] s]. reflexivity.
Qed.

Lemma calculateRiskAtTime_clamp (s rf : R) (st : bool) (t : R) :
  calculateRiskAtTime s rf st t = Math_min (Math_max (riskBeforeClamp s rf st t) 0.1) 100.
Proof. reflexivity. Qed.

Lemma cvRiskAtTime_clamp (d : MedicalData) (t : R) :
  cvRiskAtTime d t = Math_min (Math_max (cvUnclamped d t) 0.1) 100.
Proof. reflexivity. Qed.

Lemma baselineS10_range (d : MedicalData) : 0 < baselineS10 d < 1.
Proof. unfold baselineS10, cvCoefficients. destruct (gender d); simpl; lra. Qed.

Lemma Rpower_Rpower_exp (s u rf : R) :
  Rpower (Rpower s u) rf = exp (rf * (u * ln s)).
Proof. unfold Rpower at 1. now rewrite ln_Rpower. Qed.

Lemma ln_neg (s : R) : 0 < s < 1 -> ln s < 0.
Proof. intros. rewrite <- ln_1. apply ln_increasing; lra. Qed.

Lemma ln_ge_one_minus_inv (s : R) : 0 < s -> 1 - / s <= ln s.
Proof.
  intros Hs. pose proof (exp_ineq1_le (ln (/ s))) as H.
  rewrite exp_ln in H by (apply Rinv_0_lt_compat; exact Hs).
  rewrite ln_Rinv in H by exact Hs. lra.
Qed.

(** The unclamped risk, statin factor written out. *)
Lemma riskBeforeClamp_exp (s rf : R) (st : bool) (t : R) :
  riskBeforeClamp s rf st t =
  (1 - exp (rf * (t / 10 * ln s))) * (if st then 0.75 else 1) * 100.
Proof.
  unfold riskBeforeClamp, Math_pow. rewrite Rpower_Rpower_exp.
  destruct st; ring.
Qed.

Lemma riskBeforeClamp_lt_100 (s rf : R) (st : bool) (t : R) :
  riskBeforeClamp s rf st t < 100.
Proof.
  rewrite riskBeforeClamp_exp. pose proof (exp_pos (rf * (t / 10 * ln s))).
  destruct st; lra.
Qed.

(** For a small hazard multiplier the unclamped risk is at most
    [rf * (t/10) * (1/s - 1)] (times the statin factor, times 100). *)
Lemma riskBeforeClamp_le_linear (s rf t : R) :
  0 < s -> 0 <= rf -> 0 <= t ->
  riskBeforeClamp s rf false t <= rf * (t / 10) * (/ s - 1) * 100.
Proof.
  intros Hs Hrf Ht. rewrite riskBeforeClamp_exp.
  pose proof (exp_ineq1_le (rf * (t / 10 * ln s))) as He.
  pose proof (ln_ge_one_minus_inv s Hs) as Hl.
  assert (rf * (t / 10) * (1 - / s) <= rf * (t / 10) * ln s).
  { apply Rmult_le_compat_l; [| exact Hl].
    apply Rmult_le_pos; lra. }
  nra.
Qed.

Lemma clamp_floor (x : R) : x <= 0.1 -> Math_min (Math_max x 0.1) 100 = 0.1.
Proof.
  intros H. unfold Math_min, Math_max, Rmin, Rmax.
  destruct (Rle_dec x 0.1); [| lra]. destruct (Rle_dec 0.1 100); lra.
Qed.

Lemma clamp_id (x : R) : 0.1 <= x <= 100 -> Math_min (Math_max x 0.1) 100 = x.
Proof.
  intros H. unfold Math_min, Math_max, Rmin, Rmax.
  destruct (Rle_dec x 0.1); destruct (Rle_dec _ 100); lra.
Qed.

Lemma clamp_mono (x y : R) : x <= y ->
  Math_min (Math_max x 0.1) 100 <= Math_min (Math_max y 0.1) 100.
Proof.
  intros H. unfold Math_min, Math_max, Rmin, Rmax.
  destruct (Rle_dec x 0.1); destruct (Rle_dec y 0.1);
    repeat match goal with |- context [Rle_dec ?a ?b] => destruct (Rle_dec a b) end;
    lra.
Qed.

(** *** The low-risk record [youngWoman] *)

Lemma linearPredictor_youngWoman : linearPredictor youngWoman <= -4.2.
Proof.
  assert (Hm : Rmin (Rmax 30 30) 79 = 30)
    by (apply (modelAge_mid youngWoman); simpl; lra).
  unfold linearPredictor, cvCoefficients, Math_min, Math_max, Math_log, b2r.
  cbn [youngWoman age gender totalCholesterol hdlCholesterol systolicBP
       isSmoker hasDiabetes onHypertensionMeds].
  rewrite Hm.
  pose proof ln_30_bounds. pose proof ln_160_bounds.
  pose proof ln_90_bounds. pose proof ln_115_bounds.
  nra.
Qed.

Lemma cvUnclamped_youngWoman (t : R) :
  0 <= t <= 15 -> cvUnclamped youngWoman t <= 0.1.
Proof.
  intros Ht. unfold cvUnclamped, Math_exp.
  assert (Hs : baselineS10 youngWoman = 0.9665) by reflexivity.
  rewrite Hs. cbn [youngWoman onStatins].
  set (rf := exp (linearPredictor youngWoman)).
  assert (Hrf : rf <= / 60).
  { pose proof exp_m4_2_ub. unfold rf.
    destruct (Rle_lt_or_eq_dec _ _ linearPredictor_youngWoman) as [Hlt | Heq].
    - pose proof (exp_increasing _ _ Hlt). lra.
    - rewrite Heq. lra. }
  assert (Hrf0 : 0 < rf) by apply exp_pos.
  pose proof (riskBeforeClamp_le_linear 0.9665 rf t ltac:(lra) ltac:(lra) ltac:(lra)).
  assert (Hinv : / 0.9665 - 1 <= 0.035).
  { assert (0.9665 * / 0.9665 = 1) by (apply Rinv_r; lra).
    assert (0 < / 0.9665) by (apply Rinv_0_lt_compat; lra). nra. }
  assert (rf * (t / 10) * (/ 0.9665 - 1) * 100 <= / 60 * (15 / 10) * 0.035 * 100).
  { assert (0 <= / 0.9665 - 1).
    { assert (/ 0.9665 > 1); [| lra].
      rewrite <- Rinv_1. apply Rinv_lt_contravar; lra. }
    apply Rmult_le_compat_r; [lra |].
    apply Rmult_le_compat; try lra.
    - apply Rmult_le_pos; lra.
    - apply Rmult_le_compat; lra. }
  assert (/ 60 * (15 / 10) * 0.035 * 100 <= 0.1).
  { assert (60 * / 60 = 1) by (apply Rinv_r; lra). nra. }
  lra.
Qed.

Lemma cvRiskAtTime_youngWoman (t : R) :
  0 <= t <= 15 -> cvRiskAtTime youngWoman t = 0.1.
Proof.
  intros Ht. rewrite cvRiskAtTime_clamp. apply clamp_floor.
  now apply cvUnclamped_youngWoman.
Qed.

(** *** Monotonicity of the unclamped risk *)

Lemma riskBeforeClamp_horizon_strict (s rf : R) (st : bool) (t1 t2 : R) :
  0 < s < 1 -> 0 < rf -> t1 < t2 ->
  riskBeforeClamp s rf st t1 < riskBeforeClamp s rf st t2.
Proof.
  intros Hs Hrf Ht. rewrite !riskBeforeClamp_exp.
  pose proof (ln_neg s Hs) as Hl.
  assert (rf * (t2 / 10 * ln s) < rf * (t1 / 10 * ln s)).
  { apply Rmult_lt_compat_l; [exact Hrf | nra]. }
  pose proof (exp_increasing _ _ H).
  destruct st; lra.
Qed.

Lemma riskBeforeClamp_rf_mono (s rf1 rf2 : R) (st : bool) (t : R) :
  0 < s < 1 -> 0 <= t -> rf1 <= rf2 ->
  riskBeforeClamp s rf1 st t <= riskBeforeClamp s rf2 st t.
Proof.
  intros Hs Ht Hrf. rewrite !riskBeforeClamp_exp.
  pose proof (ln_neg s Hs) as Hl.
  assert (Hc : t / 10 * ln s <= 0) by nra.
  assert (rf2 * (t / 10 * ln s) <= rf1 * (t / 10 * ln s)) by nra.
  destruct (Rle_lt_or_eq_dec _ _ H) as [Hlt | Heq].
  - pose proof (exp_increasing _ _ Hlt). destruct st; lra.
  - rewrite Heq. lra.
Qed.

Lemma riskBeforeClamp_rf_strict (s rf1 rf2 : R) (st : bool) (t : R) :
  0 < s < 1 -> 0 < t -> rf1 < rf2 ->
  riskBeforeClamp s rf1 st t < riskBeforeClamp s rf2 st t.
Proof.
  intros Hs Ht Hrf. rewrite !riskBeforeClamp_exp.
  pose proof (ln_neg s Hs) as Hl.
  assert (Hc : t / 10 * ln s < 0).
  { assert (0 < t / 10) by lra. nra. }
  assert (rf2 * (t / 10 * ln s) < rf1 * (t / 10 * ln s)) by nra.
  pose proof (exp_increasing _ _ H). destruct st; lra.
Qed.

(** *** C3: dependence on the horizon *)

(** C3 as stated fails: for the valid record [youngWoman] (a 30-year-old
    woman with cholesterol 160, HDL 90, SBP 115) the unclamped risk is
    below 0.1 % at every horizon, so the final clamp reports 0.1 for
    fiveYear, tenYear and fifteenYear and the ordering is not strict. *)
Lemma horizon_strict_counterexample :
  (0 < age youngWoman /\ 0 < totalCholesterol youngWoman /\
   0 < hdlCholesterol youngWoman /\ 0 < systolicBP youngWoman) /\
  CVRisk.fiveYear (calculateCVRisk youngWoman) = 0.1 /\
  CVRisk.tenYear (calculateCVRisk youngWoman) = 0.1 /\
  CVRisk.fifteenYear (calculateCVRisk youngWoman) = 0.1 /\
  ~ (CVRisk.fiveYear (calculateCVRisk youngWoman) <
       CVRisk.tenYear (calculateCVRisk youngWoman) /\
     CVRisk.tenYear (calculateCVRisk youngWoman) <
       CVRisk.fifteenYear (calculateCVRisk youngWoman)).
Proof.
  rewrite calculateCVRisk_unfold. cbn [CVRisk.fiveYear CVRisk.tenYear CVRisk.fifteenYear].
  rewrite !cvRiskAtTime_youngWoman by lra.
  split; [simpl; lra |]. repeat split; try reflexivity. lra.
Qed.

(** C3 (amended). Holding the record fixed, the unclamped risk
    [risk * 100] of [calculateRiskAtTime] strictly increases with the
    horizon t, and the reported risk never decreases; so
    fiveYear <= tenYear <= fifteenYear, each inequality being strict
    whenever the larger value is above the 0.1 floor. *)
Theorem cvRisk_horizon_monotone (d : MedicalData) :
  (forall t1 t2, t1 < t2 ->
     cvUnclamped d t1 < cvUnclamped d t2 /\
     cvRiskAtTime d t1 <= cvRiskAtTime d t2 /\
     (0.1 < cvRiskAtTime d t2 -> cvRiskAtTime d t1 < cvRiskAtTime d t2)) /\
  CVRisk.fiveYear (calculateCVRisk d) <= CVRisk.tenYear (calculateCVRisk d) /\
  CVRisk.tenYear (calculateCVRisk d) <= CVRisk.fifteenYear (calculateCVRisk d) /\
  (0.1 < CVRisk.tenYear (calculateCVRisk d) ->
     CVRisk.fiveYear (calculateCVRisk d) < CVRisk.tenYear (calculateCVRisk d)) /\
  (0.1 < CVRisk.fifteenYear (calculateCVRisk d) ->
     CVRisk.tenYear (calculateCVRisk d) < CVRisk.fifteenYear (calculateCVRisk d)).
Proof.
  assert (Hmono : forall t1 t2, t1 < t2 ->
     cvUnclamped d t1 < cvUnclamped d t2 /\
     cvRiskAtTime d t1 <= cvRiskAtTime d t2 /\
     (0.1 < cvRiskAtTime d t2 -> cvRiskAtTime d t1 < cvRiskAtTime d t2)).
  { intros t1 t2 Ht.
    assert (Hu : cvUnclamped d t1 < cvUnclamped d t2).
    { apply riskBeforeClamp_horizon_strict;
        [apply baselineS10_range | apply exp_pos | exact Ht]. }
    pose proof (riskBeforeClamp_lt_100 (baselineS10 d)
                  (Math_exp (linearPredictor d)) (onStatins d) t2) as H100.
    fold (cvUnclamped d t2) in H100.
    rewrite !cvRiskAtTime_clamp.
    split; [exact Hu |]. split; [apply clamp_mono; lra |].
    intros Hgt. unfold Math_min, Math_max, Rmin, Rmax in *.
    repeat match goal with
    | H : context [Rle_dec ?a ?b] |- _ => destruct (Rle_dec a b)
    | |- context [Rle_dec ?a ?b] => destruct (Rle_dec a b)
    end; lra. }
  rewrite calculateCVRisk_unfold. cbn [CVRisk.fiveYear CVRisk.tenYear CVRisk.fifteenYear].
  destruct (Hmono 5 10 ltac:(lra)) as [_ [H1 H2]].
  destruct (Hmono 10 15 ltac:(lra)) as [_ [H3 H4]].
  split; [exact Hmono |]. repeat split; assumption.
Qed.

(** *** C4: statin factor *)

Lemma cvUnclamped_withStatins (d : MedicalData) (t : R) :
  cvUnclamped (withStatins d true) t = 0.75 * cvUnclamped (withStatins d false) t.
Proof.
  unfold cvUnclamped. rewrite !riskBeforeClamp_exp.
  change (linearPredictor (withStatins d true)) with (linearPredictor (withStatins d false)).
  change (baselineS10 (withStatins d true)) with (baselineS10 (withStatins d false)).
  cbn [withStatins onStatins]. ring.
Qed.

(** C4 as stated fails: [youngWoman] (not on statins) has an unclamped
    risk far below 100/0.75 at every horizon, but turning statins on does
    not scale its ten-year risk by 0.75: both versions report the 0.1
    floor. *)
Lemma statin_factor_counterexample :
  (forall t, 0 <= t <= 15 ->
     cvUnclamped (withStatins youngWoman false) t < 100 / 0.75 /\
     cvUnclamped (withStatins youngWoman true) t < 100 / 0.75) /\
  CVRisk.tenYear (calculateCVRisk (withStatins youngWoman false)) = 0.1 /\
  CVRisk.tenYear (calculateCVRisk (withStatins youngWoman true)) = 0.1 /\
  CVRisk.tenYear (calculateCVRisk (withStatins youngWoman true)) <>
    0.75 * CVRisk.tenYear (calculateCVRisk (withStatins youngWoman false)).
Proof.
  assert (Hoff : withStatins youngWoman false = youngWoman) by reflexivity.
  assert (Hon : forall t, 0 <= t <= 15 ->
            cvUnclamped (withStatins youngWoman true) t <= 0.1 * 0.75).
  { intros t Ht. rewrite cvUnclamped_withStatins, Hoff.
    pose proof (cvUnclamped_youngWoman t Ht). lra. }
  assert (H10 : CVRisk.tenYear (calculateCVRisk (withStatins youngWoman true)) = 0.1).
  { rewrite calculateCVRisk_unfold. cbn [CVRisk.tenYear].
    rewrite cvRiskAtTime_clamp. apply clamp_floor.
    pose proof (Hon 10 ltac:(lra)). lra. }
  rewrite H10, Hoff, calculateCVRisk_unfold. cbn [CVRisk.tenYear].
  rewrite cvRiskAtTime_youngWoman by lra.
  split; [| repeat split; lra].
  intros t Ht. pose proof (cvUnclamped_youngWoman t Ht).
  pose proof (Hon t Ht).
  assert (100 / 0.75 > 1) by (unfold Rdiv; apply (Rmult_lt_reg_r 0.75); [lra |];
    rewrite Rmult_assoc, Rinv_l; lra).
  lra.
Qed.

(** *** The record [elderlyWoman] and its optimal counterfactual *)

Lemma ln_le_minus_one (s : R) : 0 < s -> ln s <= s - 1.
Proof.
  intros Hs. pose proof (exp_ineq1_le (ln s)) as H. rewrite exp_ln in H; lra.
Qed.

Lemma modelAge_79 : Rmin (Rmax 79 30) 79 = 79.
Proof. apply (modelAge_mid elderlyWoman); simpl; lra. Qed.

Lemma linearPredictor_elderlyWoman : 0 <= linearPredictor elderlyWoman.
Proof.
  unfold linearPredictor, cvCoefficients, Math_min, Math_max, Math_log, b2r.
  cbn [elderlyWoman age gender totalCholesterol hdlCholesterol systolicBP
       isSmoker hasDiabetes onHypertensionMeds].
  rewrite modelAge_79.
  pose proof ln_79_bounds. pose proof ln_300_bounds.
  pose proof ln_30_bounds. pose proof ln_116_bounds.
  nra.
Qed.

(** For this woman the optimal profile has a strictly larger predictor:
    at age 79 the female coefficients of ln(total cholesterol) and ln(HDL),
    13.540 - 3.114 ln(age) and -13.578 + 3.149 ln(age), have changed sign. *)
Lemma linearPredictor_optimal_elderlyWoman :
  linearPredictor elderlyWoman < linearPredictor (optimalData elderlyWoman).
Proof.
  unfold linearPredictor, cvCoefficients, Math_min, Math_max, Math_log, b2r.
  cbn [elderlyWoman optimalData age gender totalCholesterol hdlCholesterol
       systolicBP isSmoker hasDiabetes onHypertensionMeds].
  rewrite modelAge_79.
  pose proof ln_79_bounds. pose proof ln_300_bounds. pose proof ln_30_bounds.
  pose proof ln_116_bounds. pose proof ln_115_bounds. pose proof ln_160_bounds.
  pose proof ln_55_bounds.
  nra.
Qed.

Lemma cvUnclamped_elderlyWoman (t : R) : 5 <= t -> 1.6 <= cvUnclamped elderlyWoman t.
Proof.
  intros Ht. unfold cvUnclamped.
  assert (Hs : baselineS10 elderlyWoman = 0.9665) by reflexivity.
  rewrite Hs. cbn [elderlyWoman onStatins].
  assert (Hrf : 1 <= Math_exp (linearPredictor elderlyWoman)).
  { unfold Math_exp. rewrite <- exp_0.
    destruct (Rle_lt_or_eq_dec _ _ linearPredictor_elderlyWoman) as [Hlt | Heq].
    - left. now apply exp_increasing.
    - rewrite Heq. lra. }
  eapply Rle_trans;
    [| apply (riskBeforeClamp_rf_mono 0.9665 1 _ false t); lra].
  destruct (Rle_lt_or_eq_dec _ _ Ht) as [Hlt | Heq];
    [eapply Rle_trans;
       [| left; apply (riskBeforeClamp_horizon_strict 0.9665 1 false 5 t); lra] |
     rewrite <- Heq].
  all: rewrite riskBeforeClamp_exp.
  all: pose proof (ln_le_minus_one 0.9665 ltac:(lra)).
  all: assert (Hx : 1 * (5 / 10 * ln 0.9665) <= -0.01675) by lra.
  all: assert (He : exp (1 * (5 / 10 * ln 0.9665)) <= 0.9836).
  all: try (eapply Rle_trans; [| apply (exp_ub_base (-0.01675) 0.9836); lra];
            destruct (Rle_lt_or_eq_dec _ _ Hx) as [Hlt' | Heq'];
            [left; now apply exp_increasing | rewrite Heq'; lra]).
  all: lra.
Qed.

(** C4 (amended). Toggling [onStatins] from false to true multiplies the
    unclamped risk of every horizon by exactly 0.75 (after the survival
    exponentiation, before the clamp); the reported fiveYear, tenYear and
    fifteenYear are multiplied by exactly 0.75 whenever the statin-on
    unclamped risk of that horizon is at least the 0.1 floor (the 100 cap
    is never reached). *)
Theorem statin_factor_amended (d : MedicalData) :
  (forall t, cvUnclamped (withStatins d true) t =
             0.75 * cvUnclamped (withStatins d false) t) /\
  (forall b t, cvUnclamped (withStatins d b) t < 100) /\
  (0.1 <= cvUnclamped (withStatins d true) 5 ->
   CVRisk.fiveYear (calculateCVRisk (withStatins d true)) =
     0.75 * CVRisk.fiveYear (calculateCVRisk (withStatins d false))) /\
  (0.1 <= cvUnclamped (withStatins d true) 10 ->
   CVRisk.tenYear (calculateCVRisk (withStatins d true)) =
     0.75 * CVRisk.tenYear (calculateCVRisk (withStatins d false))) /\
  (0.1 <= cvUnclamped (withStatins d true) 15 ->
   CVRisk.fifteenYear (calculateCVRisk (withStatins d true)) =
     0.75 * CVRisk.fifteenYear (calculateCVRisk (withStatins d false))).
Proof.
  assert (Hh : forall t, 0.1 <= cvUnclamped (withStatins d true) t ->
            cvRiskAtTime (withStatins d true) t =
            0.75 * cvRiskAtTime (withStatins d false) t).
  { intros t Ht. rewrite !cvRiskAtTime_clamp.
    pose proof (cvUnclamped_withStatins d t) as E.
    pose proof (riskBeforeClamp_lt_100 (baselineS10 (withStatins d false))
      (Math_exp (linearPredictor (withStatins d false)))
      (onStatins (withStatins d false)) t) as H100.
    fold (cvUnclamped (withStatins d false) t) in H100.
    rewrite (clamp_id (cvUnclamped (withStatins d true) t)) by lra.
    rewrite (clamp_id (cvUnclamped (withStatins d false) t)) by lra.
    exact E. }
  rewrite !calculateCVRisk_unfold.
  cbn [CVRisk.fiveYear CVRisk.tenYear CVRisk.fifteenYear].
  split; [apply cvUnclamped_withStatins |].
  split; [intros b t; apply riskBeforeClamp_lt_100 |].
  repeat split; apply Hh.
Qed.

Lemma statin_factor_amended_witness :
  0.1 <= cvUnclamped (withStatins elderlyWoman true) 10 /\
  CVRisk.tenYear (calculateCVRisk (withStatins elderlyWoman true)) =
    0.75 * CVRisk.tenYear (calculateCVRisk (withStatins elderlyWoman false)).
Proof.
  assert (H : 0.1 <= cvUnclamped (withStatins elderlyWoman true) 10).
  { rewrite cvUnclamped_withStatins.
    change (withStatins elderlyWoman false) with elderlyWoman.
    pose proof (cvUnclamped_elderlyWoman 10 ltac:(lra)). lra. }
  split; [exact H |].
  apply (proj1 (proj2 (proj2 (proj2 (statin_factor_amended elderlyWoman))))).
  exact H.
Defined.

(** *** The optimal profile of [goldenRecord] *)

Lemma linearPredictor_optimal_golden : -2 <= linearPredictor (optimalData goldenRecord).
Proof.
  assert (Hm : Rmin (Rmax 50 30) 79 = 50)
    by (apply (modelAge_mid goldenRecord); simpl; lra).
  unfold linearPredictor, cvCoefficients, Math_min, Math_max, Math_log, b2r.
  cbn [goldenRecord optimalData age gender totalCholesterol hdlCholesterol
       systolicBP isSmoker hasDiabetes onHypertensionMeds].
  rewrite Hm.
  pose proof ln_50_bounds. pose proof ln_160_bounds.
  pose proof ln_55_bounds. pose proof ln_115_bounds.
  nra.
Qed.

Lemma cvUnclamped_optimal_golden : 1 <= cvUnclamped (optimalData goldenRecord) 10.
Proof.
  unfold cvUnclamped.
  assert (Hs : baselineS10 (optimalData goldenRecord) = 0.9144) by reflexivity.
  rewrite Hs. cbn [goldenRecord optimalData onStatins].
  assert (Hrf : 0.13 <= Math_exp (linearPredictor (optimalData goldenRecord))).
  { unfold Math_exp. eapply Rle_trans; [apply exp_m2_lb |].
    destruct (Rle_lt_or_eq_dec _ _ linearPredictor_optimal_golden) as [Hlt | Heq].
    - left. now apply exp_increasing.
    - rewrite Heq. lra. }
  eapply Rle_trans;
    [| apply (riskBeforeClamp_rf_mono 0.9144 0.13 _ false 10); lra].
  rewrite riskBeforeClamp_exp.
  pose proof (ln_le_minus_one 0.9144 ltac:(lra)).
  assert (Hx : 0.13 * (10 / 10 * ln 0.9144) <= -0.011128) by lra.
  assert (He : exp (0.13 * (10 / 10 * ln 0.9144)) <= 0.99).
  { eapply Rle_trans; [| apply (exp_ub_base (-0.011128) 0.99); lra].
    destruct (Rle_lt_or_eq_dec _ _ Hx) as [Hlt | Heq];
      [left; now apply exp_increasing | rewrite Heq; lra]. }
  lra.
Qed.

(** *** Further enclosures and the evaluated age *)

Lemma ln_75_bounds : 4.3169 <= ln 75 <= 4.318.
Proof.
  split.
  - apply ln_ge_of_exp.
    exp_ub_step 8.660170469140654877325;
    exp_ub_step 2.94281675765594601137;
    exp_ub_step 1.715464006517171438426;
    exp_ub_step 1.309757231901076940347;
    exp_ub_step 1.144446255575628566767;
    exp_ub_step 1.069787948883155332568;
    exp_ub_step 1.034305539423992127237;
    exp_ub_step 1.017008131444381386189;
    exp_ub_step 1.008468210428262030196;
    exp_ub_step 1.004225179144728490807;
    exp_ub_step 1.00211036275688142931;
    exp_ub_step 1.00105462526121991307;
    exp_ub_step 1.000527173674568377572;
    exp_ub_step 1.000263552107427524041;
    exp_ub_finish.
  - apply ln_le_of_exp; [lra |].
    exp_lb_step 8.661238805592549054446;
    exp_lb_step 2.942998268024048473284;
    exp_lb_step 1.715516909862461388756;
    exp_lb_step 1.309777427604576406168;
    exp_lb_step 1.144455078893259316453;
    exp_lb_step 1.069792072738090220166;
    exp_lb_step 1.034307532960139578315;
    exp_lb_step 1.017009111542339908802;
    exp_lb_step 1.00846869636213295245;
    exp_lb_step 1.004225421089375207841;
    exp_lb_step 1.002110483474439662466;
    exp_lb_step 1.001054685556408383003;
    exp_lb_step 1.000527203806277514752;
    exp_lb_step 1.000263567169312387704;
    exp_lb_step 1.00013177490234375;
    exp_lb_finish.
Qed.

Lemma ln_78_bounds : 4.3562 <= ln 78 <= 4.3573.
Proof.
  split.
  - apply ln_ge_of_exp.
    exp_ub_step 8.830792768770309799818;
    exp_ub_step 2.971664982593143826242;
    exp_ub_step 1.723851786724468904462;
    exp_ub_step 1.312955363568948182566;
    exp_ub_step 1.14584264345892982766;
    exp_ub_step 1.070440396967028626003;
    exp_ub_step 1.034620895288234851916;
    exp_ub_step 1.017163160603172283369;
    exp_ub_step 1.00854507118084330231;
    exp_ub_step 1.004263447099835104971;
    exp_ub_step 1.002129456257940311907;
    exp_ub_step 1.001064161908686206618;
    exp_ub_step 1.000531939474540815929;
    exp_ub_step 1.000265934376724046161;
    exp_ub_step 1.000132958349400685403;
    exp_ub_finish.
  - apply ln_le_of_exp; [lra |].
    exp_lb_step 8.831813271276488419682;
    exp_lb_step 2.971836683143353424422;
    exp_lb_step 1.723901587429907039478;
    exp_lb_step 1.312974328549460649918;
    exp_lb_step 1.145850918989665361048;
    exp_lb_step 1.070444262439509440266;
    exp_lb_step 1.034622763348801175151;
    exp_lb_step 1.017164078872627695367;
    exp_lb_step 1.008545526425370494969;
    exp_lb_step 1.004263673755737564849;
    exp_lb_step 1.002129569345071049256;
    exp_lb_step 1.001064218392142437511;
    exp_lb_step 1.00053196770125363022;
    exp_lb_step 1.000265948486328125;
    exp_lb_finish.
Qed.

Lemma evalAge_at_most (d : MedicalData) (a : R) :
  30 <= a <= 79 -> age d <= a -> Rmin (Rmax (age d) 30) 79 <= a.
Proof.
  intros Ha H. unfold Rmin, Rmax.
  destruct (Rle_dec (age d) 30); destruct (Rle_dec _ 79); lra.
Qed.

Lemma evalAge_at_least (d : MedicalData) (a : R) :
  30 <= a <= 79 -> a <= age d -> a <= Rmin (Rmax (age d) 30) 79.
Proof.
  intros Ha H. unfold Rmin, Rmax.
  destruct (Rle_dec (age d) 30); destruct (Rle_dec _ 79); lra.
Qed.

Lemma baselineS10_gender (d : MedicalData) :
  baselineS10 d = match gender d with MALE => 0.9144 | FEMALE => 0.9665 end.
Proof. unfold baselineS10, cvCoefficients. destruct (gender d); reflexivity. Qed.

Lemma cvUnclamped_lp_strict (d1 d2 : MedicalData) (t : R) :
  gender d1 = gender d2 -> onStatins d1 = onStatins d2 -> 0 < t ->
  linearPredictor d1 < linearPredictor d2 -> cvUnclamped d1 t < cvUnclamped d2 t.
Proof.
  intros Hg Hs Ht Hlp. unfold cvUnclamped.
  rewrite !baselineS10_gender, Hg, Hs.
  apply riskBeforeClamp_rf_strict; [destruct (gender d2); lra | exact Ht |].
  unfold Math_exp. now apply exp_increasing.
Qed.

(** *** C6: optimal counterfactual against the original record *)

Lemma ln_le_mono (x y : R) : 0 < x -> x <= y -> ln x <= ln y.
Proof.
  intros Hx Hxy. destruct (Rle_lt_or_eq_dec _ _ Hxy) as [Hlt | Heq].
  - left. now apply ln_increasing.
  - rewrite Heq. lra.
Qed.

Lemma modelAge_bounds (d : MedicalData) :
  30 <= Rmin (Rmax (age d) 30) 79 <= 79 /\
  (age d <= 74 -> Rmin (Rmax (age d) 30) 79 <= 74).
Proof.
  unfold Rmin, Rmax.
  destruct (Rle_dec (age d) 30); destruct (Rle_dec _ 79); lra.
Qed.

Lemma ln_diff_bounds (x y : R) :
  0 < x -> 0 < y -> 1 - y / x <= ln x - ln y <= x / y - 1.
Proof.
  intros Hx Hy.
  assert (Hq : 0 < x * / y) by (apply Rmult_lt_0_compat; [lra | now apply Rinv_0_lt_compat]).
  assert (E : ln x - ln y = ln (x * / y))
    by (rewrite ln_mult, ln_Rinv by (try apply Rinv_0_lt_compat; lra); ring).
  rewrite E. split.
  - pose proof (ln_ge_one_minus_inv (x * / y) Hq) as H.
    replace (/ (x * / y)) with (y / x) in H by (field; lra). exact H.
  - apply ln_le_minus_one. exact Hq.
Qed.

Lemma clamp_strict (x y : R) : x < y -> 0.1 < y -> y <= 100 ->
  Math_min (Math_max x 0.1) 100 < Math_min (Math_max y 0.1) 100.
Proof.
  intros Hxy Hy H100. unfold Math_min, Math_max, Rmin, Rmax.
  destruct (Rle_dec x 0.1); destruct (Rle_dec y 0.1); try lra;
    repeat match goal with |- context [Rle_dec ?a 100] => destruct (Rle_dec a 100) end; lra.
Qed.

(** With a non-negative predictor and no statins the ten-year risk before
    the clamp is at least [(1 - s10) * 100 >= 3]. *)
Lemma cvUnclamped_10_lb (d : MedicalData) :
  onStatins d = false -> 0 <= linearPredictor d -> 3 <= cvUnclamped d 10.
Proof.
  intros Hs Hlp. unfold cvUnclamped. rewrite Hs.
  assert (Hrf : 1 <= Math_exp (linearPredictor d)).
  { unfold Math_exp. rewrite <- exp_0.
    destruct (Rle_lt_or_eq_dec _ _ Hlp) as [Hlt | Heq].
    - left. now apply exp_increasing.
    - rewrite Heq. lra. }
  eapply Rle_trans;
    [| apply (riskBeforeClamp_rf_mono _ 1 _ false 10);
         [apply baselineS10_range | lra | exact Hrf]].
  rewrite riskBeforeClamp_exp.
  replace (1 * (10 / 10 * ln (baselineS10 d))) with (ln (baselineS10 d)) by field.
  rewrite exp_ln by apply baselineS10_range.
  rewrite baselineS10_gender. destruct (gender d); lra.
Qed.

(** A record off statins whose optimal counterfactual has a larger,
    non-negative predictor reports a strictly smaller ten-year risk than
    that counterfactual. *)
Lemma optimal_gt_original (d : MedicalData) :
  onStatins d = false -> 0 <= linearPredictor (optimalData d) ->
  linearPredictor d < linearPredictor (optimalData d) ->
  CVRisk.tenYear (calculateCVRisk d) < CVRisk.tenYear (calculateOptimalRisk d).
Proof.
  intros Hs H0 Hlt. unfold calculateOptimalRisk. rewrite !calculateCVRisk_unfold.
  cbn [CVRisk.tenYear]. rewrite !cvRiskAtTime_clamp.
  pose proof (cvUnclamped_10_lb (optimalData d) eq_refl H0) as Hlo.
  pose proof (riskBeforeClamp_lt_100 (baselineS10 (optimalData d))
    (Math_exp (linearPredictor (optimalData d))) (onStatins (optimalData d)) 10) as H100.
  fold (cvUnclamped (optimalData d) 10) in H100.
  apply clamp_strict; [| lra | lra].
  apply cvUnclamped_lp_strict; [reflexivity | rewrite Hs; reflexivity | lra | exact Hlt].
Qed.

Lemma linearPredictor_optimal_womanAt75 :
  0 <= linearPredictor (optimalData womanAt75) /\
  linearPredictor womanAt75 < linearPredictor (optimalData womanAt75).
Proof.
  assert (Hm : Rmin (Rmax 75 30) 79 = 75)
    by (apply (modelAge_mid womanAt75); simpl; lra).
  unfold linearPredictor, cvCoefficients, Math_min, Math_max, Math_log, b2r.
  cbn [womanAt75 optimalData age gender totalCholesterol hdlCholesterol
       systolicBP isSmoker hasDiabetes onHypertensionMeds].
  rewrite Hm.
  pose proof ln_75_bounds as B75. pose proof ln_160_bounds as B160.
  pose proof ln_55_bounds as B55. pose proof ln_115_bounds as B115.
  assert (Q1 : 4.3169 * 4.3169 <= ln 75 * ln 75) by nra.
  assert (Q2 : ln 75 * ln 160 <= 4.318 * 5.0757) by nra.
  assert (Q3 : 4.3169 * 4.0068 <= ln 75 * ln 55) by nra.
  split; [lra |].
  pose proof (ln_diff_bounds 161 160 ltac:(lra) ltac:(lra)) as DT.
  pose proof (ln_diff_bounds 20 55 ltac:(lra) ltac:(lra)) as DH.
  pose proof (ln_diff_bounds 115.2 115 ltac:(lra) ltac:(lra)) as DS.
  assert (PT : (13.540 - 3.114 * ln 75) * (ln 161 - ln 160) <= 0.0972 * (161 / 160 - 1))
    by (apply Rmult_le_compat; lra).
  assert (PH : 0.0159 * (1 - 20 / 55) <= (3.149 * ln 75 - 13.578) * (ln 55 - ln 20))
    by (apply Rmult_le_compat; lra).
  nra.
Qed.

Lemma linearPredictor_optimal_smokingManAt79 :
  0 <= linearPredictor (optimalData smokingManAt79) /\
  linearPredictor smokingManAt79 < linearPredictor (optimalData smokingManAt79).
Proof.
  unfold linearPredictor, cvCoefficients, Math_min, Math_max, Math_log, b2r.
  cbn [smokingManAt79 optimalData age gender totalCholesterol hdlCholesterol
       systolicBP isSmoker hasDiabetes onHypertensionMeds].
  rewrite modelAge_79.
  pose proof ln_79_bounds as B79. pose proof ln_160_bounds as B160.
  pose proof ln_55_bounds as B55. pose proof ln_115_bounds as B115.
  assert (Q2 : ln 79 * ln 160 <= 4.37 * 5.0757) by nra.
  assert (Q3 : 4.3689 * 4.0068 <= ln 79 * ln 55) by nra.
  split; [lra |].
  pose proof (ln_diff_bounds 160.2 160 ltac:(lra) ltac:(lra)) as DT.
  pose proof (ln_diff_bounds 55 54.8 ltac:(lra) ltac:(lra)) as DH.
  pose proof (ln_diff_bounds 115.1 115 ltac:(lra) ltac:(lra)) as DS.
  assert (PT : (11.853 - 2.664 * ln 79) * (ln 160.2 - ln 160) <= 0.22 * (160.2 / 160 - 1))
    by (apply Rmult_le_compat; lra).
  assert (PH : (7.990 - 1.769 * ln 79) * (ln 55 - ln 54.8) <= 0.27 * (55 / 54.8 - 1))
    by (apply Rmult_le_compat; lra).
  nra.
Qed.

(** C6 as stated fails, in four ways.
    [elderlyWoman] (79 years, SBP 116, diastolic 76, total cholesterol 300,
    HDL 30, no smoking, no treatment) is worse than the optimal constants
    in every modifiable field, yet its ten-year risk is strictly below that
    of its optimal counterfactual: at age 79 the female coefficients of
    ln(total cholesterol) and ln(HDL) have changed sign.
    [womanAt75] (75 years, SBP 115.2, diastolic 76, total cholesterol 161,
    HDL 20) fails in the same way: from age 75 the female coefficient of
    ln(HDL), -13.578 + 3.149 ln(age), is positive.
    [smokingManAt79] (79 years, smoker, SBP 115.1, diastolic 76, total
    cholesterol 160.2, HDL 54.8) fails too: at age 79 the male smoking
    terms sum to 7.837 - 1.795 ln 79 < 0, so the non-smoking
    counterfactual is riskier.
    A 50-year-old man at exactly the optimal constants but on statins also
    has a ten-year risk strictly below his counterfactual, which drops the
    0.75 statin factor. *)
Lemma optimal_le_original_counterexample :
  ((0 < acr elderlyWoman /\ 115 < systolicBP elderlyWoman /\
    75 < diastolicBP elderlyWoman /\ 160 < totalCholesterol elderlyWoman /\
    hdlCholesterol elderlyWoman < 55 /\ isSmoker elderlyWoman = false /\
    onHypertensionMeds elderlyWoman = false /\ onStatins elderlyWoman = false) /\
   CVRisk.tenYear (calculateCVRisk elderlyWoman) <
     CVRisk.tenYear (calculateOptimalRisk elderlyWoman)) /\
  ((0 < acr womanAt75 /\ gender womanAt75 = FEMALE /\ age womanAt75 = 75 /\
    115 < systolicBP womanAt75 /\ 75 < diastolicBP womanAt75 /\
    160 < totalCholesterol womanAt75 /\ hdlCholesterol womanAt75 < 55 /\
    isSmoker womanAt75 = false /\ onHypertensionMeds womanAt75 = false /\
    onStatins womanAt75 = false) /\
   CVRisk.tenYear (calculateCVRisk womanAt75) <
     CVRisk.tenYear (calculateOptimalRisk womanAt75)) /\
  ((0 < acr smokingManAt79 /\ gender smokingManAt79 = MALE /\ age smokingManAt79 = 79 /\
    115 < systolicBP smokingManAt79 /\ 75 < diastolicBP smokingManAt79 /\
    160 < totalCholesterol smokingManAt79 /\ hdlCholesterol smokingManAt79 < 55 /\
    isSmoker smokingManAt79 = true /\ onHypertensionMeds smokingManAt79 = false /\
    onStatins smokingManAt79 = false) /\
   CVRisk.tenYear (calculateCVRisk smokingManAt79) <
     CVRisk.tenYear (calculateOptimalRisk smokingManAt79)) /\
  ((0 < acr optimalOnStatins /\ systolicBP optimalOnStatins = 115 /\
    diastolicBP optimalOnStatins = 75 /\ totalCholesterol optimalOnStatins = 160 /\
    hdlCholesterol optimalOnStatins = 55 /\ isSmoker optimalOnStatins = false /\
    onHypertensionMeds optimalOnStatins = false /\ onStatins optimalOnStatins = true) /\
   CVRisk.tenYear (calculateCVRisk optimalOnStatins) <
     CVRisk.tenYear (calculateOptimalRisk optimalOnStatins)).
Proof.
  split; [| split; [| split]].
  - split; [simpl; repeat split; try reflexivity; lra |].
    unfold calculateOptimalRisk. rewrite !calculateCVRisk_unfold.
    cbn [CVRisk.tenYear]. rewrite !cvRiskAtTime_clamp.
    pose proof (cvUnclamped_elderlyWoman 10 ltac:(lra)) as Hlo.
    assert (Hlt : cvUnclamped elderlyWoman 10 < cvUnclamped (optimalData elderlyWoman) 10).
    { unfold cvUnclamped.
      change (baselineS10 (optimalData elderlyWoman)) with (baselineS10 elderlyWoman).
      change (onStatins (optimalData elderlyWoman)) with (onStatins elderlyWoman).
      apply riskBeforeClamp_rf_strict; [apply baselineS10_range | lra |].
      unfold Math_exp. apply exp_increasing.
      apply linearPredictor_optimal_elderlyWoman. }
    pose proof (riskBeforeClamp_lt_100 (baselineS10 (optimalData elderlyWoman))
      (Math_exp (linearPredictor (optimalData elderlyWoman)))
      (onStatins (optimalData elderlyWoman)) 10) as H100.
    fold (cvUnclamped (optimalData elderlyWoman) 10) in H100.
    pose proof (riskBeforeClamp_lt_100 (baselineS10 elderlyWoman)
      (Math_exp (linearPredictor elderlyWoman)) (onStatins elderlyWoman) 10) as H100'.
    fold (cvUnclamped elderlyWoman 10) in H100'.
    rewrite !clamp_id by lra. exact Hlt.
  - split; [simpl; repeat split; try reflexivity; lra |].
    destruct linearPredictor_optimal_womanAt75 as [H0 Hlt].
    exact (optimal_gt_original womanAt75 eq_refl H0 Hlt).
  - split; [simpl; repeat split; try reflexivity; lra |].
    destruct linearPredictor_optimal_smokingManAt79 as [H0 Hlt].
    exact (optimal_gt_original smokingManAt79 eq_refl H0 Hlt).
  - split; [simpl; repeat split; try reflexivity; lra |].
    assert (Hopt : optimalData optimalOnStatins = withStatins (optimalData goldenRecord) false)
      by reflexivity.
    unfold calculateOptimalRisk. rewrite Hopt, !calculateCVRisk_unfold.
    cbn [CVRisk.tenYear]. rewrite !cvRiskAtTime_clamp.
    unfold optimalOnStatins. rewrite cvUnclamped_withStatins.
    change (withStatins (optimalData goldenRecord) false) with (optimalData goldenRecord).
    pose proof cvUnclamped_optimal_golden as Hlo.
    pose proof (riskBeforeClamp_lt_100 (baselineS10 (optimalData goldenRecord))
      (Math_exp (linearPredictor (optimalData goldenRecord)))
      (onStatins (optimalData goldenRecord)) 10) as H100.
    fold (cvUnclamped (optimalData goldenRecord) 10) in H100.
    rewrite !clamp_id by lra. lra.
Qed.

(** For a woman aged at most 74, a man aged at most 78, or a non-smoking
    man, every modifiable term of the predictor has the sign that makes
    the optimal profile no riskier. *)
Lemma linearPredictor_optimal_le (d : MedicalData) :
  115 <= systolicBP d -> 160 <= totalCholesterol d ->
  0 < hdlCholesterol d <= 55 ->
  (gender d = FEMALE /\ age d <= 74 \/
   gender d = MALE /\ (age d <= 78 \/ isSmoker d = false)) ->
  linearPredictor (optimalData d) <= linearPredictor d.
Proof.
  intros Hs Ht Hh Hc.
  destruct (modelAge_bounds d) as [[A1 A2] _].
  pose proof (ln_le_mono 30 (Rmin (Rmax (age d) 30) 79) ltac:(lra) A1) as L1.
  pose proof (ln_le_mono (Rmin (Rmax (age d) 30) 79) 79 ltac:(lra) A2) as L2.
  pose proof (ln_le_mono 160 _ ltac:(lra) Ht) as T1.
  pose proof (ln_le_mono _ 55 (proj1 Hh) (proj2 Hh)) as H1.
  pose proof (ln_le_mono 115 _ ltac:(lra) Hs) as S1.
  pose proof ln_30_bounds as B30. pose proof ln_79_bounds as B79.
  pose proof ln_115_bounds as B115.
  unfold linearPredictor, cvCoefficients, Math_min, Math_max, Math_log, b2r.
  cbn [optimalData age gender totalCholesterol hdlCholesterol
       systolicBP isSmoker hasDiabetes onHypertensionMeds].
  set (A := Rmin (Rmax (age d) 30) 79) in *.
  destruct Hc as [[Hg Ha] | [Hg Hm]]; rewrite Hg.
  - assert (A74 : A <= 74) by (apply evalAge_at_most; lra).
    pose proof (ln_le_mono A 74 ltac:(lra) A74) as L74.
    pose proof ln_74_bounds as B74.
    set (L := ln A) in *.
    set (T := ln (totalCholesterol d)) in *.
    set (lH := ln (hdlCholesterol d)) in *.
    set (S := ln (systolicBP d)) in *.
    assert (PfT : 0 <= (13.540 - 3.114 * L) * (T - ln 160)) by (apply Rmult_le_pos; lra).
    assert (PfH : 0 <= (13.578 - 3.149 * L) * (ln 55 - lH)) by (apply Rmult_le_pos; lra).
    assert (Pfs : 0 <= 7.574 - 1.665 * L) by lra.
    destruct (onHypertensionMeds d); destruct (isSmoker d); destruct (hasDiabetes d); nra.
  - assert (Pms : isSmoker d = true -> 0 <= 7.837 - 1.795 * ln A).
    { intros Hsm. destruct Hm as [Ha | Hn]; [| congruence].
      assert (A78 : A <= 78) by (apply evalAge_at_most; lra).
      pose proof (ln_le_mono A 78 ltac:(lra) A78). pose proof ln_78_bounds. lra. }
    set (L := ln A) in *.
    set (T := ln (totalCholesterol d)) in *.
    set (lH := ln (hdlCholesterol d)) in *.
    set (S := ln (systolicBP d)) in *.
    assert (PmT : 0 <= (11.853 - 2.664 * L) * (T - ln 160)) by (apply Rmult_le_pos; lra).
    assert (PmH : 0 <= (7.990 - 1.769 * L) * (ln 55 - lH)) by (apply Rmult_le_pos; lra).
    destruct (isSmoker d);
      [specialize (Pms eq_refl) | clear Pms];
      destruct (onHypertensionMeds d); destruct (hasDiabetes d); nra.
Qed.

(** C6 (amended). For every record not on statins with systolic BP
    >= 115, total cholesterol >= 160 and 0 < HDL <= 55 (antihypertensive
    treatment arbitrary) that is a woman aged at most 74, a man aged at
    most 78, or a non-smoking man of any age, each horizon of
    [calculateOptimalRisk] is at most the same horizon of [calculateCVRisk]
    on the original record. *)
Theorem optimal_le_original_amended (d : MedicalData) :
  onStatins d = false -> 115 <= systolicBP d ->
  160 <= totalCholesterol d -> 0 < hdlCholesterol d <= 55 ->
  (gender d = FEMALE /\ age d <= 74 \/
   gender d = MALE /\ (age d <= 78 \/ isSmoker d = false)) ->
  CVRisk.fiveYear (calculateOptimalRisk d) <= CVRisk.fiveYear (calculateCVRisk d) /\
  CVRisk.tenYear (calculateOptimalRisk d) <= CVRisk.tenYear (calculateCVRisk d) /\
  CVRisk.fifteenYear (calculateOptimalRisk d) <= CVRisk.fifteenYear (calculateCVRisk d).
Proof.
  intros Hst Hs Ht Hh Hc.
  pose proof (linearPredictor_optimal_le d Hs Ht Hh Hc) as Hlp.
  assert (Hu : forall t, 0 <= t ->
            cvUnclamped (optimalData d) t <= cvUnclamped d t).
  { intros t Ht0. unfold cvUnclamped.
    change (baselineS10 (optimalData d)) with
      (let '(_, _, s10) := cvCoefficients (optimalData d) in s10).
    replace (let '(_, _, s10) := cvCoefficients (optimalData d) in s10)
      with (baselineS10 d)
      by (unfold baselineS10, cvCoefficients; simpl; destruct (gender d); reflexivity).
    change (onStatins (optimalData d)) with false. rewrite Hst.
    apply riskBeforeClamp_rf_mono; [apply baselineS10_range | exact Ht0 |].
    unfold Math_exp. destruct (Rle_lt_or_eq_dec _ _ Hlp) as [Hlt | Heq].
    - left. now apply exp_increasing.
    - rewrite Heq. lra. }
  unfold calculateOptimalRisk. rewrite !calculateCVRisk_unfold.
  cbn [CVRisk.fiveYear CVRisk.tenYear CVRisk.fifteenYear].
  rewrite !cvRiskAtTime_clamp.
  repeat split; apply clamp_mono, Hu; lra.
Qed.

Lemma optimal_le_original_amended_witness :
  (onStatins goldenRecord = false /\ 115 <= systolicBP goldenRecord /\
   160 <= totalCholesterol goldenRecord /\ 0 < hdlCholesterol goldenRecord <= 55 /\
   gender goldenRecord = MALE /\ age goldenRecord <= 78) /\
  CVRisk.tenYear (calculateOptimalRisk goldenRecord) <=
    CVRisk.tenYear (calculateCVRisk goldenRecord).
Proof.
  split; [simpl; repeat split; try reflexivity; lra |].
  apply (optimal_le_original_amended goldenRecord); simpl; try reflexivity; try lra.
  right. split; [reflexivity | left; lra].
Defined.

(** ** Further properties of the risk engine and of App.tsx *)

(** *** calculateRenalRisk *)

Lemma calculateRenalRisk_horizons (d : MedicalData) :
  calculateRenalRisk d =
  RenalRisk.mk (renalHorizon 0.9832 (renalLp d)) (renalHorizon 0.9365 (renalLp d))
               (renalHorizon 0.8200 (renalLp d)).
Proof. reflexivity. Qed.

Lemma renalHorizon_exp (s lp : R) :
  renalHorizon s lp = (1 - exp (exp lp * ln s)) * 100.
Proof. reflexivity. Qed.

Lemma renalHorizon_base_strict (s1 s2 lp : R) :
  0 < s1 < s2 -> renalHorizon s2 lp < renalHorizon s1 lp.
Proof.
  intros Hs. rewrite !renalHorizon_exp.
  pose proof (exp_pos lp) as He.
  assert (Hl : ln s1 < ln s2) by (apply ln_increasing; lra).
  assert (exp lp * ln s1 < exp lp * ln s2) by (apply Rmult_lt_compat_l; lra).
  pose proof (exp_increasing _ _ H). lra.
Qed.

Lemma renalHorizon_lp_strict (s lp1 lp2 : R) :
  0 < s < 1 -> lp1 < lp2 -> renalHorizon s lp1 < renalHorizon s lp2.
Proof.
  intros Hs Hlp. rewrite !renalHorizon_exp.
  pose proof (ln_neg s Hs) as Hl.
  pose proof (exp_increasing _ _ Hlp) as He.
  assert (exp lp2 * ln s < exp lp1 * ln s) by nra.
  pose proof (exp_increasing _ _ H). lra.
Qed.

(** Every horizon of [calculateRenalRisk] grows strictly with [lp]. *)
Lemma calculateRenalRisk_lp_strict (d1 d2 : MedicalData) :
  renalLp d1 < renalLp d2 ->
  RenalRisk.twoYear (calculateRenalRisk d1) < RenalRisk.twoYear (calculateRenalRisk d2) /\
  RenalRisk.fiveYear (calculateRenalRisk d1) < RenalRisk.fiveYear (calculateRenalRisk d2) /\
  RenalRisk.tenYear (calculateRenalRisk d1) < RenalRisk.tenYear (calculateRenalRisk d2).
Proof.
  intros H. rewrite !calculateRenalRisk_horizons. cbn [RenalRisk.twoYear RenalRisk.fiveYear RenalRisk.tenYear].
  repeat split; apply renalHorizon_lp_strict; lra.
Qed.

(** The three survival constants are ordered, so the horizons are: the
    two-year risk is below the five-year risk, which is below the ten-year
    risk. *)
Theorem calculateRenalRisk_horizon_order (d : MedicalData) :
  0 < acr d ->
  RenalRisk.twoYear (calculateRenalRisk d) < RenalRisk.fiveYear (calculateRenalRisk d) <
  RenalRisk.tenYear (calculateRenalRisk d).
Proof.
  intros _. rewrite calculateRenalRisk_horizons.
  cbn [RenalRisk.twoYear RenalRisk.fiveYear RenalRisk.tenYear].
  split; apply renalHorizon_base_strict; lra.
Qed.

Lemma calculateRenalRisk_horizon_order_witness :
  0 < acr goldenRecord /\
  RenalRisk.twoYear (calculateRenalRisk goldenRecord) <
  RenalRisk.fiveYear (calculateRenalRisk goldenRecord) <
  RenalRisk.tenYear (calculateRenalRisk goldenRecord).
Proof.
  split; [cbn [goldenRecord acr]; lra |].
  apply calculateRenalRisk_horizon_order. cbn [goldenRecord acr]; lra.
Defined.

(** Raising ACR through the form strictly raises every horizon of the
    renal risk. *)
Theorem calculateRenalRisk_acr_strict (d : MedicalData) (a1 a2 : R) :
  0 < a1 -> a1 < a2 ->
  let r1 := calculateRenalRisk (handleInputChange d (setNum f_acr a1)) in
  let r2 := calculateRenalRisk (handleInputChange d (setNum f_acr a2)) in
  RenalRisk.twoYear r1 < RenalRisk.twoYear r2 /\
  RenalRisk.fiveYear r1 < RenalRisk.fiveYear r2 /\
  RenalRisk.tenYear r1 < RenalRisk.tenYear r2.
Proof.
  intros H1 H12 r1 r2. apply calculateRenalRisk_lp_strict.
  unfold renalLp, Math_log.
  cbn [handleInputChange age gender eGFR acr NumField_beq].
  pose proof (ln_increasing a1 a2 H1 H12). lra.
Qed.

Lemma calculateRenalRisk_acr_strict_witness :
  (0 < 30 /\ 30 < 300) /\
  RenalRisk.fiveYear (calculateRenalRisk (handleInputChange goldenRecord (setNum f_acr 30))) <
  RenalRisk.fiveYear (calculateRenalRisk (handleInputChange goldenRecord (setNum f_acr 300))).
Proof.
  split; [lra |].
  apply (calculateRenalRisk_acr_strict goldenRecord 30 300); lra.
Defined.

(** For a positive ACR (so that ln(ACR) is finite), raising eGFR through
    the form strictly lowers every horizon. *)
Theorem calculateRenalRisk_eGFR_strict (d : MedicalData) (e1 e2 : R) :
  0 < acr d -> e1 < e2 ->
  let r1 := calculateRenalRisk (handleInputChange d (setNum f_eGFR e1)) in
  let r2 := calculateRenalRisk (handleInputChange d (setNum f_eGFR e2)) in
  RenalRisk.twoYear r2 < RenalRisk.twoYear r1 /\
  RenalRisk.fiveYear r2 < RenalRisk.fiveYear r1 /\
  RenalRisk.tenYear r2 < RenalRisk.tenYear r1.
Proof.
  intros Ha H12 r1 r2. apply calculateRenalRisk_lp_strict.
  unfold renalLp, Math_log.
  cbn [handleInputChange age gender eGFR acr NumField_beq]. lra.
Qed.

Lemma calculateRenalRisk_eGFR_strict_witness :
  (0 < acr goldenRecord /\ 30 < 60) /\
  RenalRisk.fiveYear (calculateRenalRisk (handleInputChange goldenRecord (setNum f_eGFR 60))) <
  RenalRisk.fiveYear (calculateRenalRisk (handleInputChange goldenRecord (setNum f_eGFR 30))).
Proof.
  split; [split; [cbn [goldenRecord acr] | ]; lra |].
  apply (calculateRenalRisk_eGFR_strict goldenRecord 30 60); cbn [goldenRecord acr]; lra.
Defined.

(** For a positive ACR (so that ln(ACR) is finite): the KFRE age
    coefficient is negative, so at equal eGFR and ACR an older age strictly
    lowers every horizon; male sex strictly raises it. *)
Theorem calculateRenalRisk_age_sex_strict (d : MedicalData) (a1 a2 : R) :
  0 < acr d ->
  (a1 < a2 ->
   let r1 := calculateRenalRisk (handleInputChange d (setNum f_age a1)) in
   let r2 := calculateRenalRisk (handleInputChange d (setNum f_age a2)) in
   RenalRisk.twoYear r2 < RenalRisk.twoYear r1 /\
   RenalRisk.fiveYear r2 < RenalRisk.fiveYear r1 /\
   RenalRisk.tenYear r2 < RenalRisk.tenYear r1) /\
  (let rf := calculateRenalRisk (handleInputChange d (setGender FEMALE)) in
   let rm := calculateRenalRisk (handleInputChange d (setGender MALE)) in
   RenalRisk.twoYear rf < RenalRisk.twoYear rm /\
   RenalRisk.fiveYear rf < RenalRisk.fiveYear rm /\
   RenalRisk.tenYear rf < RenalRisk.tenYear rm).
Proof.
  intros Ha. split.
  - intros H12 r1 r2. apply calculateRenalRisk_lp_strict.
    unfold renalLp, Math_log.
    cbn [handleInputChange age gender eGFR acr NumField_beq]. lra.
  - intros rf rm. apply calculateRenalRisk_lp_strict.
    unfold renalLp, Math_log.
    cbn [handleInputChange age gender eGFR acr NumField_beq]. lra.
Qed.

Lemma calculateRenalRisk_age_sex_strict_witness :
  (0 < acr goldenRecord /\ 50 < 70) /\
  RenalRisk.fiveYear (calculateRenalRisk (handleInputChange goldenRecord (setNum f_age 70))) <
  RenalRisk.fiveYear (calculateRenalRisk (handleInputChange goldenRecord (setNum f_age 50))).
Proof.
  split; [split; [cbn [goldenRecord acr] | ]; lra |].
  apply (proj1 (calculateRenalRisk_age_sex_strict goldenRecord 50 70
                  ltac:(cbn [goldenRecord acr]; lra))); lra.
Defined.

(** *** calculateCVRisk: the direction of each input *)

Lemma cvRiskAtTime_lp_mono (d1 d2 : MedicalData) (t : R) :
  gender d1 = gender d2 -> onStatins d1 = onStatins d2 -> 0 <= t ->
  linearPredictor d1 <= linearPredictor d2 -> cvRiskAtTime d1 t <= cvRiskAtTime d2 t.
Proof.
  intros Hg Hs Ht Hlp. rewrite !cvRiskAtTime_clamp. apply clamp_mono.
  unfold cvUnclamped. rewrite !baselineS10_gender, Hg, Hs.
  apply riskBeforeClamp_rf_mono; [destruct (gender d2); lra | exact Ht |].
  unfold Math_exp. destruct (Rle_lt_or_eq_dec _ _ Hlp) as [Hlt | Heq].
  - left. now apply exp_increasing.
  - rewrite Heq. lra.
Qed.

(** Both consequences of an ordered predictor, for two records of the same
    sex and statin status. *)
Lemma cv_lp_consequences (d1 d2 : MedicalData) :
  gender d1 = gender d2 -> onStatins d1 = onStatins d2 ->
  linearPredictor d1 <= linearPredictor d2 ->
  (forall t, 0 <= t -> cvRiskAtTime d1 t <= cvRiskAtTime d2 t) /\
  (linearPredictor d1 < linearPredictor d2 ->
   forall t, 0 < t -> cvUnclamped d1 t < cvUnclamped d2 t).
Proof.
  intros Hg Hs Hlp. split.
  - intros t Ht. now apply cvRiskAtTime_lp_mono.
  - intros Hlt t Ht. now apply cvUnclamped_lp_strict.
Qed.

Ltac unfold_lp :=
  unfold linearPredictor, cvCoefficients, Math_min, Math_max, Math_log, b2r;
  cbn [handleInputChange age gender totalCholesterol hdlCholesterol systolicBP
       isSmoker hasDiabetes onHypertensionMeds onStatins NumField_beq BoolField_beq].

Lemma evalAge_bounds (d : MedicalData) :
  3.4006 <= ln (Rmin (Rmax (age d) 30) 79) <= 4.37.
Proof.
  destruct (modelAge_bounds d) as [[A1 A2] _].
  pose proof (ln_le_mono 30 _ ltac:(lra) A1).
  pose proof (ln_le_mono (Rmin (Rmax (age d) 30) 79) 79 ltac:(lra) A2).
  pose proof ln_30_bounds. pose proof ln_79_bounds. lra.
Qed.

(** For a record with positive total cholesterol and HDL, a higher
    (positive) systolic pressure entered in the form never lowers any
    horizon of the cardiovascular risk, and strictly raises the risk
    before the clamp: the ln(SBP) coefficient is positive for both sexes,
    treated or not. *)
Theorem cvRisk_systolicBP_mono (d : MedicalData) (v1 v2 : R) :
  0 < totalCholesterol d -> 0 < hdlCholesterol d -> 0 < v1 <= v2 ->
  let d1 := handleInputChange d (setNum f_systolicBP v1) in
  let d2 := handleInputChange d (setNum f_systolicBP v2) in
  (forall t, 0 <= t -> cvRiskAtTime d1 t <= cvRiskAtTime d2 t) /\
  (v1 < v2 -> forall t, 0 < t -> cvUnclamped d1 t < cvUnclamped d2 t).
Proof.
  intros _ _ Hv d1 d2.
  assert (Hl : ln v1 <= ln v2) by (apply ln_le_mono; lra).
  assert (Hs : v1 < v2 -> ln v1 < ln v2) by (intros; apply ln_increasing; lra).
  assert (E : linearPredictor d1 <= linearPredictor d2 /\
              (v1 < v2 -> linearPredictor d1 < linearPredictor d2)).
  { unfold d1, d2. unfold_lp.
    destruct (gender d); destruct (onHypertensionMeds d); split; intros; try specialize (Hs H); lra. }
  destruct (cv_lp_consequences d1 d2 eq_refl eq_refl (proj1 E)) as [M S].
  split; [exact M | intros Hlt; apply S, (proj2 E), Hlt].
Qed.

Lemma cvRisk_systolicBP_mono_witness :
  (0 < totalCholesterol goldenRecord /\ 0 < hdlCholesterol goldenRecord /\
   0 < 120 <= 160) /\
  cvRiskAtTime (handleInputChange goldenRecord (setNum f_systolicBP 120)) 10 <=
  cvRiskAtTime (handleInputChange goldenRecord (setNum f_systolicBP 160)) 10.
Proof.
  split; [cbn [goldenRecord totalCholesterol hdlCholesterol]; lra |].
  apply (proj1 (cvRisk_systolicBP_mono goldenRecord 120 160
                  ltac:(cbn [goldenRecord totalCholesterol]; lra)
                  ltac:(cbn [goldenRecord hdlCholesterol]; lra) ltac:(lra))); lra.
Defined.

(** For a record with positive systolic pressure, total cholesterol and
    HDL, switching diabetes on never lowers any horizon and strictly raises
    the risk before the clamp. *)
Theorem cvRisk_diabetes_mono (d : MedicalData) :
  0 < systolicBP d -> 0 < totalCholesterol d -> 0 < hdlCholesterol d ->
  let d0 := handleInputChange d (setBool f_hasDiabetes false) in
  let d1 := handleInputChange d (setBool f_hasDiabetes true) in
  (forall t, 0 <= t -> cvRiskAtTime d0 t <= cvRiskAtTime d1 t) /\
  (forall t, 0 < t -> cvUnclamped d0 t < cvUnclamped d1 t).
Proof.
  intros _ _ _ d0 d1.
  assert (E : linearPredictor d0 < linearPredictor d1).
  { unfold d0, d1. unfold_lp. destruct (gender d); lra. }
  destruct (cv_lp_consequences d0 d1 eq_refl eq_refl (Rlt_le _ _ E)) as [M S].
  split; [exact M | exact (S E)].
Qed.

Lemma cvRisk_diabetes_mono_witness :
  (0 < systolicBP goldenRecord /\ 0 < totalCholesterol goldenRecord /\
   0 < hdlCholesterol goldenRecord) /\
  cvUnclamped (handleInputChange goldenRecord (setBool f_hasDiabetes false)) 10 <
  cvUnclamped (handleInputChange goldenRecord (setBool f_hasDiabetes true)) 10.
Proof.
  split; [cbn [goldenRecord systolicBP totalCholesterol hdlCholesterol]; lra |].
  apply (proj2 (cvRisk_diabetes_mono goldenRecord
                  ltac:(cbn [goldenRecord systolicBP]; lra)
                  ltac:(cbn [goldenRecord totalCholesterol]; lra)
                  ltac:(cbn [goldenRecord hdlCholesterol]; lra))); lra.
Defined.

(** For men, at every age the model evaluates, a higher total cholesterol
    never lowers the risk and a higher HDL never raises it. *)
Theorem cvRisk_male_lipids_mono (d : MedicalData) (v1 v2 : R) :
  gender d = MALE -> 0 < v1 <= v2 ->
  (forall t, 0 <= t ->
     cvRiskAtTime (handleInputChange d (setNum f_totalCholesterol v1)) t <=
     cvRiskAtTime (handleInputChange d (setNum f_totalCholesterol v2)) t) /\
  (forall t, 0 <= t ->
     cvRiskAtTime (handleInputChange d (setNum f_hdlCholesterol v2)) t <=
     cvRiskAtTime (handleInputChange d (setNum f_hdlCholesterol v1)) t).
Proof.
  intros Hg Hv.
  assert (Hl : ln v1 <= ln v2) by (apply ln_le_mono; lra).
  pose proof (evalAge_bounds d) as HA.
  split; intros t Ht; apply cvRiskAtTime_lp_mono; try reflexivity; try exact Ht;
    unfold_lp; rewrite Hg; set (L := ln (Rmin (Rmax (age d) 30) 79)) in *.
  - assert (0 <= (11.853 - 2.664 * L) * (ln v2 - ln v1)) by (apply Rmult_le_pos; lra).
    destruct (onHypertensionMeds d); destruct (isSmoker d); destruct (hasDiabetes d); nra.
  - assert (0 <= (7.990 - 1.769 * L) * (ln v2 - ln v1)) by (apply Rmult_le_pos; lra).
    destruct (onHypertensionMeds d); destruct (isSmoker d); destruct (hasDiabetes d); nra.
Qed.

Lemma cvRisk_male_lipids_mono_witness :
  (gender goldenRecord = MALE /\ 0 < 160 <= 250) /\
  cvRiskAtTime (handleInputChange goldenRecord (setNum f_totalCholesterol 160)) 10 <=
  cvRiskAtTime (handleInputChange goldenRecord (setNum f_totalCholesterol 250)) 10.
Proof.
  split; [split; [reflexivity | lra] |].
  apply (proj1 (cvRisk_male_lipids_mono goldenRecord 160 250 eq_refl ltac:(lra))); lra.
Defined.
(** Smoking never lowers the risk of a woman, nor of a man aged at most
    78: the smoking terms [7.837 - 1.795 ln(age)] (men) and
    [7.574 - 1.665 ln(age)] (women) are then non-negative. *)
Theorem cvRisk_smoking_mono (d : MedicalData) :
  gender d = FEMALE \/ age d <= 78 ->
  forall t, 0 <= t ->
    cvRiskAtTime (handleInputChange d (setBool f_isSmoker false)) t <=
    cvRiskAtTime (handleInputChange d (setBool f_isSmoker true)) t.
Proof.
  intros Hd t Ht. apply cvRiskAtTime_lp_mono; try reflexivity; try exact Ht.
  pose proof (evalAge_bounds d) as HA.
  destruct (modelAge_bounds d) as [[A1 _] _].
  unfold_lp. set (A := Rmin (Rmax (age d) 30) 79) in *.
  destruct Hd as [Hg | Ha].
  - rewrite Hg. destruct (onHypertensionMeds d); destruct (hasDiabetes d); lra.
  - assert (A78 : A <= 78) by (apply evalAge_at_most; lra).
    pose proof (ln_le_mono A 78 ltac:(lra) A78).
    pose proof ln_78_bounds.
    destruct (gender d); destruct (onHypertensionMeds d); destruct (hasDiabetes d); lra.
Qed.

Lemma cvRisk_smoking_mono_witness :
  (gender goldenRecord = FEMALE \/ age goldenRecord <= 78) /\
  cvRiskAtTime (handleInputChange goldenRecord (setBool f_isSmoker false)) 10 <=
  cvRiskAtTime (handleInputChange goldenRecord (setBool f_isSmoker true)) 10.
Proof.
  split; [right; cbn [goldenRecord age]; lra |].
  apply cvRisk_smoking_mono; [right; cbn [goldenRecord age]; lra | lra].
Defined.

(** For a man aged 79 or more (with positive systolic pressure, total
    cholesterol and HDL) the smoking terms sum to
    [7.837 - 1.795 ln 79 < 0]: switching smoking on strictly lowers the
    risk before the clamp and never raises any horizon. *)
Theorem cvRisk_male_smoking_reversal (d : MedicalData) :
  gender d = MALE -> 79 <= age d ->
  0 < systolicBP d -> 0 < totalCholesterol d -> 0 < hdlCholesterol d ->
  (forall t, 0 < t ->
     cvUnclamped (handleInputChange d (setBool f_isSmoker true)) t <
     cvUnclamped (handleInputChange d (setBool f_isSmoker false)) t) /\
  (forall t, 0 <= t ->
     cvRiskAtTime (handleInputChange d (setBool f_isSmoker true)) t <=
     cvRiskAtTime (handleInputChange d (setBool f_isSmoker false)) t).
Proof.
  intros Hg Ha _ _ _.
  assert (E : linearPredictor (handleInputChange d (setBool f_isSmoker true)) <
              linearPredictor (handleInputChange d (setBool f_isSmoker false))).
  { unfold_lp. rewrite Hg.
    assert (A79 : Rmin (Rmax (age d) 30) 79 = 79).
    { unfold Rmin, Rmax. destruct (Rle_dec (age d) 30); destruct (Rle_dec _ 79); lra. }
    rewrite A79. pose proof ln_79_bounds.
    destruct (onHypertensionMeds d); destruct (hasDiabetes d); lra. }
  destruct (cv_lp_consequences (handleInputChange d (setBool f_isSmoker true))
              (handleInputChange d (setBool f_isSmoker false))
              eq_refl eq_refl (Rlt_le _ _ E)) as [M S].
  split; [exact (S E) | exact M].
Qed.

Lemma cvRisk_male_smoking_reversal_witness :
  (gender (handleInputChange goldenRecord (setNum f_age 79)) = MALE /\
   79 <= age (handleInputChange goldenRecord (setNum f_age 79)) /\
   0 < systolicBP (handleInputChange goldenRecord (setNum f_age 79)) /\
   0 < totalCholesterol (handleInputChange goldenRecord (setNum f_age 79)) /\
   0 < hdlCholesterol (handleInputChange goldenRecord (setNum f_age 79))) /\
  cvUnclamped (handleInputChange (handleInputChange goldenRecord (setNum f_age 79))
                 (setBool f_isSmoker true)) 10 <
  cvUnclamped (handleInputChange (handleInputChange goldenRecord (setNum f_age 79))
                 (setBool f_isSmoker false)) 10.
Proof.
  split; [split; [reflexivity |];
          cbn [handleInputChange goldenRecord age systolicBP totalCholesterol
               hdlCholesterol NumField_beq]; lra |].
  apply (proj1 (cvRisk_male_smoking_reversal
           (handleInputChange goldenRecord (setNum f_age 79)) eq_refl
           ltac:(cbn [handleInputChange goldenRecord age NumField_beq]; lra)
           ltac:(cbn [handleInputChange goldenRecord systolicBP NumField_beq]; lra)
           ltac:(cbn [handleInputChange goldenRecord totalCholesterol NumField_beq]; lra)
           ltac:(cbn [handleInputChange goldenRecord hdlCholesterol NumField_beq]; lra))).
  lra.
Defined.

(** For women (with positive systolic pressure, total cholesterol and
    HDL) the age interactions reverse the lipid terms at the top of the
    age range: from age 78 a higher (positive) total cholesterol strictly
    lowers the risk before the clamp, and from age 75 a higher (positive)
    HDL strictly raises it. *)
Theorem cvRisk_female_lipid_reversal (d : MedicalData) (v1 v2 : R) :
  gender d = FEMALE ->
  0 < systolicBP d -> 0 < totalCholesterol d -> 0 < hdlCholesterol d ->
  0 < v1 < v2 ->
  (78 <= age d -> forall t, 0 < t ->
     cvUnclamped (handleInputChange d (setNum f_totalCholesterol v2)) t <
     cvUnclamped (handleInputChange d (setNum f_totalCholesterol v1)) t) /\
  (75 <= age d -> forall t, 0 < t ->
     cvUnclamped (handleInputChange d (setNum f_hdlCholesterol v1)) t <
     cvUnclamped (handleInputChange d (setNum f_hdlCholesterol v2)) t).
Proof.
  intros Hg _ _ _ Hv.
  assert (Hl : ln v1 < ln v2) by (apply ln_increasing; lra).
  pose proof (evalAge_bounds d) as HA.
  split; intros Ha t Ht; apply cvUnclamped_lp_strict; try reflexivity; try exact Ht;
    unfold_lp; rewrite Hg; set (A := Rmin (Rmax (age d) 30) 79) in *.
  - assert (A78 : 78 <= A) by (apply evalAge_at_least; lra).
    pose proof (ln_le_mono 78 A ltac:(lra) A78). pose proof ln_78_bounds.
    assert (0 < (3.114 * ln A - 13.540) * (ln v2 - ln v1)) by (apply Rmult_lt_0_compat; lra).
    destruct (onHypertensionMeds d); destruct (isSmoker d); destruct (hasDiabetes d); nra.
  - assert (A75 : 75 <= A) by (apply evalAge_at_least; lra).
    pose proof (ln_le_mono 75 A ltac:(lra) A75). pose proof ln_75_bounds.
    assert (0 < (3.149 * ln A - 13.578) * (ln v2 - ln v1)) by (apply Rmult_lt_0_compat; lra).
    destruct (onHypertensionMeds d); destruct (isSmoker d); destruct (hasDiabetes d); nra.
Qed.

Lemma cvRisk_female_lipid_reversal_witness :
  (gender elderlyWoman = FEMALE /\ 0 < systolicBP elderlyWoman /\
   0 < totalCholesterol elderlyWoman /\ 0 < hdlCholesterol elderlyWoman /\
   0 < 200 < 300 /\ 78 <= age elderlyWoman) /\
  cvUnclamped (handleInputChange elderlyWoman (setNum f_totalCholesterol 300)) 10 <
  cvUnclamped (handleInputChange elderlyWoman (setNum f_totalCholesterol 200)) 10.
Proof.
  split; [split; [reflexivity |];
          cbn [elderlyWoman age systolicBP totalCholesterol hdlCholesterol]; lra |].
  apply (proj1 (cvRisk_female_lipid_reversal elderlyWoman 200 300 eq_refl
                  ltac:(cbn [elderlyWoman systolicBP]; lra)
                  ltac:(cbn [elderlyWoman totalCholesterol]; lra)
                  ltac:(cbn [elderlyWoman hdlCholesterol]; lra) ltac:(lra)));
    [cbn [elderlyWoman age]; lra | lra].
Defined.

(** *** getCombinedResults: the stratification *)

Lemma stratify_rank (cv rn : R) :
  ((1 <= levelRank (stratify cv rn))%nat <-> cv > 5 \/ rn > 5) /\
  ((2 <= levelRank (stratify cv rn))%nat <-> cv > 10 \/ rn > 10) /\
  ((3 <= levelRank (stratify cv rn))%nat <-> cv > 20 \/ rn > 15).
Proof.
  unfold stratify, gtb.
  destruct (Rlt_dec 20 cv); destruct (Rlt_dec 15 rn); destruct (Rlt_dec 10 cv);
    destruct (Rlt_dec 10 rn); destruct (Rlt_dec 5 cv); destruct (Rlt_dec 5 rn);
    cbn [orb levelRank];
    repeat split; intros H; try lia; try lra; try (destruct H; lra).
Qed.

(** The combined level never decreases when the cardiovascular or the
    renal risk it reads grows. *)
Theorem stratify_mono (cv1 cv2 rn1 rn2 : R) :
  cv1 <= cv2 -> rn1 <= rn2 ->
  (levelRank (stratify cv1 rn1) <= levelRank (stratify cv2 rn2))%nat.
Proof.
  intros Hc Hr.
  destruct (stratify_rank cv1 rn1) as [[P1 _] [[P2 _] [P3 _]]].
  destruct (stratify_rank cv2 rn2) as [[_ Q1] [[_ Q2] [_ Q3]]].
  destruct (stratify cv1 rn1) eqn:E1; cbn [levelRank] in *.
  - lia.
  - assert (H : cv1 > 5 \/ rn1 > 5) by (apply P1; lia).
    apply Q1. destruct H; lra.
  - assert (H : cv1 > 10 \/ rn1 > 10) by (apply P2; lia).
    apply Q2. destruct H; lra.
  - assert (H : cv1 > 20 \/ rn1 > 15) by (apply P3; lia).
    apply Q3. destruct H; lra.
Qed.

Lemma stratify_mono_witness :
  (4 <= 12 /\ 3 <= 11) /\
  (levelRank (stratify 4 3) <= levelRank (stratify 12 11))%nat.
Proof. split; [lra | apply stratify_mono; lra]. Defined.

(** *** The formal report *)

Lemma cvClassification_rank (t : R) :
  ((1 <= cvClassRank (cvClassification t))%nat <-> 5 <= t) /\
  ((2 <= cvClassRank (cvClassification t))%nat <-> 7.5 <= t).
Proof.
  unfold cvClassification, ltb.
  destruct (Rlt_dec t 5); destruct (Rlt_dec t 7.5); cbn [cvClassRank];
    repeat split; intros H; try lia; lra.
Qed.

(** For a record with positive systolic pressure, total cholesterol and
    HDL (so that the ten-year risk is a number), the report's
    classification of the ten-year risk never goes down as the risk grows,
    and an 'Elevado' classification always comes with a combined level
    above 'low'. *)
Theorem cvClassification_report (d : MedicalData) :
  0 < systolicBP d -> 0 < totalCholesterol d -> 0 < hdlCholesterol d ->
  (forall t1 t2, t1 <= t2 ->
     (cvClassRank (cvClassification t1) <= cvClassRank (cvClassification t2))%nat) /\
  (cvClassification (CvTimeline.tenYear (cvTimeline (getCombinedResults d))) = Elevado ->
   combinedLevel (getCombinedResults d) <> low).
Proof.
  intros _ _ _. split.
  - intros t1 t2 Ht.
    destruct (cvClassification_rank t1) as [[P1 _] [P2 _]].
    destruct (cvClassification_rank t2) as [[_ Q1] [_ Q2]].
    destruct (cvClassification t1); cbn [cvClassRank] in *.
    + lia.
    + apply Q1. assert (5 <= t1) by (apply P1; lia). lra.
    + apply Q2. assert (7.5 <= t1) by (apply P2; lia). lra.
  - change (CvTimeline.tenYear (cvTimeline (getCombinedResults d)))
      with (CVRisk.tenYear (calculateCVRisk d)).
    change (combinedLevel (getCombinedResults d))
      with (stratify (CVRisk.tenYear (calculateCVRisk d))
                     (RenalRisk.fiveYear (calculateRenalRisk d))).
    intros HE HL.
    destruct (cvClassification_rank (CVRisk.tenYear (calculateCVRisk d))) as [_ [P2 _]].
    rewrite HE in P2. cbn [cvClassRank] in P2.
    assert (H75 : 7.5 <= CVRisk.tenYear (calculateCVRisk d)) by (apply P2; lia).
    destruct (stratify_rank (CVRisk.tenYear (calculateCVRisk d))
                (RenalRisk.fiveYear (calculateRenalRisk d))) as [[_ Q1] _].
    rewrite HL in Q1. cbn [levelRank] in Q1.
    assert (H : (1 <= 0)%nat) by (apply Q1; left; lra). lia.
Qed.

Lemma cvClassification_report_witness :
  (0 < systolicBP goldenRecord /\ 0 < totalCholesterol goldenRecord /\
   0 < hdlCholesterol goldenRecord) /\
  (cvClassRank (cvClassification 3) <= cvClassRank (cvClassification 8))%nat.
Proof.
  split; [cbn [goldenRecord systolicBP totalCholesterol hdlCholesterol]; lra |].
  apply (proj1 (cvClassification_report goldenRecord
                  ltac:(cbn [goldenRecord systolicBP]; lra)
                  ltac:(cbn [goldenRecord totalCholesterol]; lra)
                  ltac:(cbn [goldenRecord hdlCholesterol]; lra))); lra.
Defined.

(** *** kdigoStage *)

Ltac split_decs :=
  repeat match goal with
         | |- context [Rlt_dec ?a ?b] => destruct (Rlt_dec a b); try lra
         end.

(** A lower eGFR never gives a milder GFR stage, and a higher ACR never
    gives a milder albuminuria stage. *)
Theorem kdigoStage_mono (d1 d2 : MedicalData) :
  (eGFR d1 <= eGFR d2 ->
   (gfrRank (stage (kdigoStage d2)) <= gfrRank (stage (kdigoStage d1)))%nat) /\
  (acr d1 <= acr d2 ->
   (acrRank (acrStage (kdigoStage d1)) <= acrRank (acrStage (kdigoStage d2)))%nat).
Proof.
  unfold kdigoStage, ltb, gtb. cbn [stage acrStage].
  split; intros H; split_decs; cbn [gfrRank acrRank]; lia.
Qed.

Lemma kdigoStage_mono_witness :
  eGFR goldenRecordVariant <= eGFR youngWoman /\
  (gfrRank (stage (kdigoStage youngWoman)) <=
   gfrRank (stage (kdigoStage goldenRecordVariant)))%nat.
Proof.
  split; [cbn [goldenRecordVariant youngWoman eGFR]; lra |].
  apply (proj1 (kdigoStage_mono goldenRecordVariant youngWoman)).
  cbn [goldenRecordVariant youngWoman eGFR]; lra.
Defined.

(** The report prints [kdigoStage.acrStage] next to a second albuminuria
    category computed with [<] instead of [>]; the two agree exactly when
    ACR is neither 30 nor 300. *)
Theorem albuminuria_label_agreement (d : MedicalData) :
  acrStage (kdigoStage d) = albuminuriaLabel d <-> acr d <> 30 /\ acr d <> 300.
Proof.
  unfold kdigoStage, albuminuriaLabel, ltb, gtb. cbn [acrStage].
  split_decs; split; intros H;
    first [ discriminate
          | reflexivity
          | split; intros E; lra
          | destruct H as [H1 H2]; exfalso;
            first [apply H1; lra | apply H2; lra] ].
Qed.

(** The items "TFG reduzida" and "Albuminúria" of the report's risk
    factor list appear exactly when [kdigoStage] is G3a or worse,
    respectively A2 or worse. *)
Theorem riskFactorList_kdigo (d : MedicalData) :
  (In tfgReduzida (riskFactorList d) <-> (3 <= gfrRank (stage (kdigoStage d)))%nat) /\
  (In albuminuria (riskFactorList d) <-> acrStage (kdigoStage d) <> A1).
Proof.
  unfold riskFactorList, kdigoStage, ltb, gtb. cbn [stage acrStage].
  split_decs; cbn [app In gfrRank]; split; split; intros H;
    repeat match goal with H : _ \/ _ |- _ => destruct H end;
    try discriminate; try lia; try tauto; try congruence.
Qed.

(** *** Number(x.toFixed(1)) *)

Lemma floor_bounds (y : R) : IZR (up y - 1) <= y < IZR (up y - 1) + 1.
Proof.
  destruct (archimed y) as [H1 H2]. rewrite minus_IZR. lra.
Qed.

Lemma roundTenths_error (x : R) : x - / 20 < roundTenths x <= x + / 20.
Proof.
  unfold roundTenths. pose proof (floor_bounds (x * 10 + / 2)). lra.
Qed.

Lemma pow10_21 : 1 <= 10 ^ 21.
Proof. apply pow_R1_Rle. lra. Qed.

(** [Number(x.toFixed(1))] is within 0.05 of [x]. *)
Lemma toFixed1_error (x : R) : Rabs (toFixed1 x - x) <= / 20.
Proof.
  unfold toFixed1.
  destruct (Rle_dec (10 ^ 21) (Rabs x)).
  - unfold Rminus. rewrite Rplus_opp_r, Rabs_R0. lra.
  - apply Rabs_le. destruct (Rlt_dec x 0).
    + pose proof (roundTenths_error (- x)). lra.
    + pose proof (roundTenths_error x). lra.
Qed.


(** Rounding to one decimal keeps a value of [0.1, 100] in [0.1, 100]. *)
Lemma toFixed1_range (x : R) : 0.1 <= x <= 100 -> 0.1 <= toFixed1 x <= 100.
Proof.
  intros Hx. pose proof pow10_21 as P21.
  unfold toFixed1, roundTenths.
  destruct (Rle_dec (10 ^ 21) (Rabs x)) as [Hb | Hb].
  - lra.
  - destruct (Rlt_dec x 0) as [Hn | Hn]; [lra |].
    pose proof (floor_bounds (x * 10 + / 2)) as [F1 F2].
    assert (Hlo : (0 < up (x * 10 + / 2) - 1)%Z) by (apply lt_IZR; lra).
    assert (Hhi : (up (x * 10 + / 2) - 1 < 1001)%Z) by (apply lt_IZR; lra).
    assert (L : (1 <= up (x * 10 + / 2) - 1)%Z) by lia.
    assert (U : (up (x * 10 + / 2) - 1 <= 1000)%Z) by lia.
    apply IZR_le in L. apply IZR_le in U. lra.
Qed.

(** [bmiValue] is the BMI from height and weight, off by at most 0.05. *)
Theorem bmiValue_error (d : MedicalData) :
  0 < height d ->
  Rabs (bmiValue d - weight d / ((height d / 100) * (height d / 100))) <= 0.05.
Proof.
  intros _. unfold bmiValue. pose proof (toFixed1_error (weight d / ((height d / 100) * (height d / 100)))).
  lra.
Qed.

Lemma bmiValue_error_witness :
  0 < height goldenRecord /\
  Rabs (bmiValue goldenRecord -
        weight goldenRecord / ((height goldenRecord / 100) * (height goldenRecord / 100))) <= 0.05.
Proof.
  split; [cbn [goldenRecord height]; lra |].
  apply bmiValue_error. cbn [goldenRecord height]; lra.
Defined.

(** For a record with positive systolic pressure, total cholesterol and
    HDL, both bars of [compareData] lie in [0.1, 100]. *)
Theorem compareData_range (d : MedicalData) :
  0 < systolicBP d -> 0 < totalCholesterol d -> 0 < hdlCholesterol d ->
  0.1 <= fst (compareData d) <= 100 /\ 0.1 <= snd (compareData d) <= 100.
Proof.
  intros _ _ _. unfold compareData, calculateOptimalRisk. cbn [fst snd].
  split; apply toFixed1_range.
  - change (CvTimeline.tenYear (cvTimeline (getCombinedResults d)))
      with (CVRisk.tenYear (calculateCVRisk d)).
    rewrite calculateCVRisk_unfold. apply calculateRiskAtTime_bounds.
  - rewrite calculateCVRisk_unfold. apply calculateRiskAtTime_bounds.
Qed.

Lemma compareData_range_witness :
  (0 < systolicBP goldenRecord /\ 0 < totalCholesterol goldenRecord /\
   0 < hdlCholesterol goldenRecord) /\
  0.1 <= fst (compareData goldenRecord) <= 100.
Proof.
  split; [cbn [goldenRecord systolicBP totalCholesterol hdlCholesterol]; lra |].
  apply (proj1 (compareData_range goldenRecord
                  ltac:(cbn [goldenRecord systolicBP]; lra)
                  ltac:(cbn [goldenRecord totalCholesterol]; lra)
                  ltac:(cbn [goldenRecord hdlCholesterol]; lra))).
Defined.






(** *** The form toggles *)

(** Pressing a toggle button twice gives back the record. *)
Theorem toggleField_involutive (d : MedicalData) (f : BoolField) :
  toggleField (toggleField d f) f = d.
Proof.
  destruct d; destruct f; unfold toggleField, handleInputChange, boolFieldValue;
    cbn; rewrite Bool.negb_involutive; reflexivity.
Qed.

(** *** Navigation *)

Lemma navStep_invariant (s : NavState) (e : NavEvent) :
  navInvariant s -> navInvariant (navStep s e).
Proof.
  destruct s as [v n]. unfold navInvariant. cbn [view step].
  intros [Hn Hr].
  destruct e; destruct v; cbn [navStep view step];
    try (destruct (Nat.eqb_spec n 1));
    try (destruct (Nat.ltb_spec n 3));
    cbn [view step]; split; intros; try discriminate; try lia; auto.
Qed.

(** Whatever buttons are pressed, the step of the form stays in 1..3, and
    the results view is only ever shown after the third step. *)
Theorem navigation_invariant (evs : list NavEvent) :
  (1 <= step (runNav evs) <= 3)%nat /\ (view (runNav evs) = results -> step (runNav evs) = 3%nat).
Proof.
  change ((fun s => navInvariant s) (runNav evs)).
  unfold runNav.
  assert (Hi : navInvariant navInit) by (unfold navInvariant; cbn; split; [lia | discriminate]).
  revert Hi. generalize navInit.
  induction evs as [| e evs IH]; intros s Hs; cbn [fold_left].
  - exact Hs.
  - apply IH, navStep_invariant, Hs.
Qed.

(** *** Settings and localStorage *)

Lemma string_length_append (a b : string) :
  String.length (a ++ b) = (String.length a + String.length b)%nat.
Proof. induction a as [| c a IH]; cbn; [reflexivity | now rewrite IH]. Qed.

Lemma append_inj_r (a b s : string) : (a ++ s)%string = (b ++ s)%string -> a = b.
Proof.
  revert b. induction a as [| c a IH]; intros b H; destruct b as [| c' b]; cbn in H.
  - reflexivity.
  - apply (f_equal String.length) in H. cbn in H.
    rewrite string_length_append in H. lia.
  - apply (f_equal String.length) in H. cbn in H.
    rewrite string_length_append in H. lia.
  - injection H as Hc H. subst c'. f_equal. now apply IH.
Qed.

Lemma apiKeyItem_not_provider_item (prov : string) : "ai_provider"%string <> apiKeyItem prov.
Proof.
  unfold apiKeyItem. intros H.
  assert (L := f_equal String.length H). rewrite string_length_append in L. cbn in L.
  destruct prov as [| c1 [| c2 [| c3 [| c4 prov]]]]; cbn in L; try lia.
  cbn in H. injection H as _ _ _ H. discriminate H.
Qed.

Lemma getItemOr_set (st : Storage) (k v : string) : getItemOr (setItem st k v) k "" = v.
Proof.
  unfold getItemOr, setItem. rewrite String.eqb_refl.
  destruct (String.eqb_spec v ""); [subst; reflexivity | reflexivity].
Qed.

Lemma initSettings_synced (st : Storage) : settingsSynced (initSettings st).
Proof. split; [reflexivity | intros p; destruct p; reflexivity]. Qed.

Lemma settingsStep_synced (s : Settings) (e : SettingsEvent) :
  settingsSynced s -> settingsSynced (settingsStep s e).
Proof.
  destruct s as [st prov keys]. unfold settingsSynced. cbn [storage provider apiKeys].
  intros [Hp Hk]. destruct e as [q | key]; cbn [settingsStep changeProvider saveApiKey
                                                storage provider apiKeys].
  - split.
    + unfold getItemOr, setItem. destruct q; reflexivity.
    + intros p. rewrite Hk. unfold getItemOr, setItem. destruct p; reflexivity.
  - split.
    + unfold getItemOr at 1, setItem.
      destruct (String.eqb_spec "ai_provider" (apiKeyItem prov)) as [E | _];
        [exfalso; exact (apiKeyItem_not_provider_item prov E) | exact Hp].
    + intros p. destruct (String.eqb_spec (providerName p) prov) as [E | N].
      * rewrite <- E. now rewrite getItemOr_set.
      * rewrite Hk. unfold getItemOr, setItem.
        destruct (String.eqb_spec (apiKeyItem (providerName p)) (apiKeyItem prov)) as [E | _].
        -- exfalso. apply N. exact (append_inj_r _ _ _ E).
        -- reflexivity.
Qed.

(** The settings held in memory always equal what a reload of the page
    would read back from localStorage: the provider, and the key of each
    of the three providers. *)
Theorem settings_reload (st : Storage) (evs : list SettingsEvent) :
  let s := fold_left settingsStep evs (initSettings st) in
  provider s = provider (initSettings (storage s)) /\
  forall p, apiKeys s (providerName p) = apiKeys (initSettings (storage s)) (providerName p).
Proof.
  intros s.
  assert (H : settingsSynced s).
  { unfold s. generalize (initSettings_synced st). generalize (initSettings st).
    induction evs as [| e evs IH]; intros s0 H0; cbn [fold_left];
      [exact H0 | apply IH, settingsStep_synced, H0]. }
  destruct H as [Hp Hk]. split.
  - exact Hp.
  - intros p. rewrite Hk. destruct p; reflexivity.
Qed.
